(** * One-way ANOVA application and synthetic data generator

    A shallow embedding of [ANOVA_MAIN.py] (class [AnovaApp]) and of
    [Data_Generator.py] (classes [ANOVADataGenerator], [DataGeneratorGUI]).

    - NumPy [float64] values are IEEE 754 binary64 numbers, modelled by the
      executable [spec_float] operations of the standard library
      ([prec = 53], [emax = 1024], round to nearest even); [int64] values
      are integers with their wrap-around written out.
    - A NumPy array has one element type.  A column in which every cell
      reads as a 64-bit integer is an [int64] array, every other numeric
      column a [float64] array (columns of booleans or of unsigned 64-bit
      integers are left out); sums and squares are taken in the type of
      the array, and [ndarray.sum] on floats adds in NumPy's pairwise
      order.
    - The arithmetic core of [perform_anova] is written once over an
      interface [Arrays]; it runs on NumPy's arrays (what the program does)
      and on the canonical rationals [Qc] (the same formulas without
      rounding).
    - A Python [str] is held as its UTF-8 encoding.
    - What the program takes from libraries and cannot be read in the
      repository (text-to-number parsing, [scipy.stats.f_oneway], the [pow]
      of the C library behind [**] on a float scalar, the state of
      [numpy.random]) is a parameter of the functions that use it.
    - Exceptions are values of [result]; the handlers [except Exception] of
      the two GUI entry points turn [Raise e] into an error dialog. *)

From Stdlib Require Import ZArith String Ascii List Bool Lia.
From Stdlib Require Import QArith Qcanon Field.
From Stdlib Require Import Floats.SpecFloat.
From Stdlib Require Import DecimalString DecimalZ FinFun.
Import ListNotations.

Open Scope Z_scope.

(** ** Exceptions and results *)

Inductive exception :=
| ValueError (msg : string)
| ZeroDivisionError (msg : string)
| OverflowError (msg : string).

Inductive result (A : Type) :=
| Ok (a : A)
| Raise (e : exception).

Arguments Ok {A} a.
Arguments Raise {A} e.

Definition bind {A B} (r : result A) (k : A -> result B) : result B :=
  match r with
  | Ok a => k a
  | Raise e => Raise e
  end.

Notation "x <- r ;; k" := (bind r (fun x => k))
  (at level 61, r at next level, right associativity).

(** ** Numbers of the result table

    The operations on the numbers that the tables hold: binary64 in the
    program, rationals where the formulas are read without rounding. *)

Class Arith (N : Type) := {
  zero : N;
  add : N -> N -> N;
  sub : N -> N -> N;
  mul : N -> N -> N;
  div : N -> N -> N;
  of_int : Z -> N
}.

(** ** binary64 *)

Module F64.
Definition prec := 53.
Definition emax := 1024.
Definition t := spec_float.

Definition add : t -> t -> t := SFadd prec emax.
Definition sub : t -> t -> t := SFsub prec emax.
Definition mul : t -> t -> t := SFmul prec emax.
Definition div : t -> t -> t := SFdiv prec emax.
Definition sqrt : t -> t := SFsqrt prec emax.
Definition abs : t -> t := SFabs.
Definition ltb : t -> t -> bool := SFltb.
Definition gtb (x y : t) : bool := SFltb y x.
Definition nan : t := S754_nan.

Definition isnan (x : t) : bool :=
  match x with S754_nan => true | _ => false end.

Definition is_zero (x : t) : bool :=
  match x with S754_zero _ => true | _ => false end.

Definition is_inf (x : t) : bool :=
  match x with S754_infinity _ => true | _ => false end.

(** Conversion of a Python [int], rounding to nearest even. *)
Definition of_int (z : Z) : t := binary_normalize prec emax z 0 false.

(** The nearest integer to [m / 2^k], ties to the even one. *)
Definition round_half_even (m : Z) (k : Z) : Z :=
  let q := m / 2 ^ k in
  let r := m mod 2 ^ k in
  match Z.compare (2 * r) (2 ^ k) with
  | Lt => q
  | Gt => q + 1
  | Eq => if Z.even q then q else q + 1
  end.

(** [numpy.rint]: the sign survives a zero result. *)
Definition rint (x : t) : t :=
  match x with
  | S754_finite s m e =>
      if 0 <=? e then x
      else binary_normalize prec emax
             (cond_Zopp s (round_half_even (Zpos m) (- e))) 0 s
  | _ => x
  end.
End F64.

#[export] Instance Arith_F64 : Arith F64.t := {
  zero := S754_zero false;
  add := F64.add;
  sub := F64.sub;
  mul := F64.mul;
  div := F64.div;
  of_int := F64.of_int
}.

(** ** Exact rationals *)

#[export] Instance Arith_Qc : Arith Qc := {
  zero := Q2Qc 0;
  add := Qcplus;
  sub := Qcminus;
  mul := Qcmult;
  div := Qcdiv;
  of_int := fun z => Q2Qc (inject_Z z)
}.

(** ** 64-bit integers *)

Module I64.
(** The value that the 64 bits of [z] hold in two's complement. *)
Definition wrap (z : Z) : Z := (z + 2 ^ 63) mod 2 ^ 64 - 2 ^ 63.

Definition in_range (z : Z) : bool := (- 2 ^ 63 <=? z) && (z <? 2 ^ 63).

Definition add (a b : Z) : Z := wrap (a + b).
Definition mul (a b : Z) : Z := wrap (a * b).
End I64.

(** ** NumPy arrays and scalars *)

Inductive ndarray :=
| Int64Array (a : list Z)
| Float64Array (a : list F64.t).

Inductive scalar :=
| Int64 (z : Z)
| Float64 (x : F64.t).

Definition len {A} (l : list A) : Z := Z.of_nat (List.length l).

(** [len(g)]. *)
Definition array_len (g : ndarray) : Z :=
  match g with
  | Int64Array a => len a
  | Float64Array a => len a
  end.

(** [g.astype(float)], as a list. *)
Definition as_float (g : ndarray) : list F64.t :=
  match g with
  | Int64Array a => map F64.of_int a
  | Float64Array a => a
  end.

(** The conversion of a scalar that meets a float or a true division. *)
Definition float_of_scalar (s : scalar) : F64.t :=
  match s with
  | Int64 z => F64.of_int z
  | Float64 x => x
  end.

(** *** [ndarray.sum()] on [float64]

    NumPy's pairwise summation: fewer than 8 elements are added from the
    left; up to 128 elements go through 8 accumulators that are then added
    as a tree, the elements past the last multiple of 8 being added one by
    one; a longer array is cut in two at a multiple of 8 and the sums of the
    halves are added.  The reduction itself starts from [0.0]. *)
Definition np_zero : F64.t := S754_zero false.

Definition sum_loop (a : list F64.t) (res : F64.t) : F64.t :=
  fold_left F64.add a res.

(** The loop [for (i = 8; i < n - n % 8; i += 8) r[j] += a[i + j]]. *)
Fixpoint add_blocks (r a : list F64.t) (blocks : nat) : list F64.t :=
  match blocks with
  | O => r
  | S blocks' =>
      add_blocks (map (fun '(x, y) => F64.add x y) (combine r (firstn 8 a)))
                 (skipn 8 a) blocks'
  end.

Definition sum_unrolled (a : list F64.t) : F64.t :=
  let n := List.length a in
  let r := add_blocks (firstn 8 a) (skipn 8 a) (n / 8 - 1)%nat in
  let res :=
    match r with
    | [r0; r1; r2; r3; r4; r5; r6; r7] =>
        F64.add (F64.add (F64.add r0 r1) (F64.add r2 r3))
                (F64.add (F64.add r4 r5) (F64.add r6 r7))
    | _ => F64.nan
    end in
  sum_loop (skipn (8 * (n / 8))%nat a) res.

(** [depth] bounds the number of halvings; the length of the array is
    always enough. *)
Fixpoint pairwise_sum (depth : nat) (a : list F64.t) : F64.t :=
  let n := List.length a in
  if (n <? 8)%nat then sum_loop a np_zero
  else
    match depth with
    | S depth' =>
        if (128 <? n)%nat then
          let n2 := (n / 2 - (n / 2) mod 8)%nat in
          F64.add (pairwise_sum depth' (firstn n2 a))
                  (pairwise_sum depth' (skipn n2 a))
        else sum_unrolled a
    | O => sum_unrolled a
    end.

Definition np_sum (a : list F64.t) : F64.t :=
  F64.add np_zero (pairwise_sum (List.length a) a).

(** [ndarray.mean()] on [float64]: the sum over the number of elements. *)
Definition np_mean (a : list F64.t) : F64.t :=
  F64.div (np_sum a) (F64.of_int (len a)).

(** The sum in [float64] of an array of another type, as [mean] takes it:
    the elements are converted in buffers of 8192, and the pairwise sum of
    each buffer is added to the result. *)
Definition np_bufsize : nat := Z.to_nat 8192.

Fixpoint sum_buffers (buffers : nat) (a : list F64.t) (res : F64.t) : F64.t :=
  match buffers with
  | O => res
  | S buffers' =>
      let buf := firstn np_bufsize a in
      sum_buffers buffers' (skipn np_bufsize a)
                  (F64.add res (pairwise_sum (List.length buf) buf))
  end.

Definition np_sum_buffered (a : list F64.t) : F64.t :=
  sum_buffers ((List.length a + np_bufsize - 1) / np_bufsize)%nat a np_zero.

(** [g.sum()]: on [int64] the additions wrap around. *)
Definition ndarray_sum (g : ndarray) : scalar :=
  match g with
  | Int64Array a => Int64 (fold_left I64.add a 0)
  | Float64Array a => Float64 (np_sum a)
  end.

(** [g.mean()], a [float64] for either type. *)
Definition ndarray_mean (g : ndarray) : F64.t :=
  match g with
  | Int64Array a =>
      F64.div (np_sum_buffered (map F64.of_int a)) (F64.of_int (len a))
  | Float64Array a => np_mean a
  end.

(** [g ** 2] on an array: the product of each element with itself. *)
Definition ndarray_square (g : ndarray) : ndarray :=
  match g with
  | Int64Array a => Int64Array (map (fun x => I64.mul x x) a)
  | Float64Array a => Float64Array (map (fun x => F64.mul x x) a)
  end.

(** [a + b] on scalars, the integer [0] that the builtin [sum] starts from
    included: two integers stay [int64], anything else is a [float64]. *)
Definition scalar_add_np (a b : scalar) : scalar :=
  match a, b with
  | Int64 x, Int64 y => Int64 (I64.add x y)
  | _, _ => Float64 (F64.add (float_of_scalar a) (float_of_scalar b))
  end.

(** [s ** 2] on a scalar: the wrapping product on [int64], the function
    [pow] of the C library on [float64]. *)
Definition scalar_pow2_np (pow : F64.t -> F64.t -> F64.t) (s : scalar)
  : scalar :=
  match s with
  | Int64 z => Int64 (I64.mul z z)
  | Float64 x => Float64 (pow x (F64.of_int 2))
  end.

(** ** The arithmetic core of [AnovaApp.perform_anova]

    Lines 207-235 of [ANOVA_MAIN.py], from [group_sums] to [F_calculated].
    [len] results and the degrees of freedom are Python integers.  The
    groups are arrays of type [A]; their sums, the totals and the squares
    of sums are scalars of type [S]; from the first true division on every
    value is a number of type [N]. *)

(** The builtin [sum] on integers. *)
Definition py_sum_int (l : list Z) : Z := fold_left Z.add l 0.

Class Arrays (A S N : Type) := {
  size : A -> Z;
  array_sum : A -> S;
  array_square : A -> A;
  int_zero : S;
  scalar_add : S -> S -> S;
  scalar_pow2 : S -> S;
  to_result : S -> N
}.

Definition Arrays_np (pow : F64.t -> F64.t -> F64.t)
  : Arrays ndarray scalar F64.t := {|
  size := array_len;
  array_sum := ndarray_sum;
  array_square := ndarray_square;
  int_zero := Int64 0;
  scalar_add := scalar_add_np;
  scalar_pow2 := scalar_pow2_np pow;
  to_result := float_of_scalar
|}.

Definition Arrays_Qc : Arrays (list Qc) Qc Qc := {|
  size := len;
  array_sum := fun a => fold_left Qcplus a (Q2Qc 0);
  array_square := map (fun x => Qcmult x x);
  int_zero := Q2Qc 0;
  scalar_add := Qcplus;
  scalar_pow2 := fun x => Qcmult x x;
  to_result := fun x => x
|}.

Record anova_table (N : Type) := {
  C : N;
  SST : N;
  SSTR : N;
  SSE : N;
  df_treat : Z;
  df_error : Z;
  df_total : Z;
  MSTR : N;
  MSE : N;
  F_calculated : N
}.

Arguments C {N} _.
Arguments SST {N} _.
Arguments SSTR {N} _.
Arguments SSE {N} _.
Arguments df_treat {N} _.
Arguments df_error {N} _.
Arguments df_total {N} _.
Arguments MSTR {N} _.
Arguments MSE {N} _.
Arguments F_calculated {N} _.

Section Sums.
Context {N : Type} `{Arith N}.

(** The builtin [sum] on numbers of type [N]; it starts from the integer
    [0]. *)
Definition py_sum (a : list N) : N := fold_left add a zero.
End Sums.

Section Engine.
Context {A S N : Type} {HN : Arith N} (np : Arrays A S N).

(** The builtin [sum] on scalars. *)
Definition py_sum_scalars (a : list S) : S := fold_left scalar_add a int_zero.

(** [sum(group_sums)] over an empty [group_list] is the integer [0] and
    [n] is [0] too, so that [(total_sum**2) / n] is an integer division
    by zero; with at least one group [total_sum] is a NumPy scalar, whose
    division by zero raises nothing. *)
Definition perform_anova_core (group_list : list A)
  : result (anova_table N) :=
  let group_sums := map array_sum group_list in
  let group_sq_sums := map (fun g => array_sum (array_square g)) group_list in
  let group_sizes := map size group_list in
  let p := len group_list in
  let n := py_sum_int group_sizes in
  match group_list with
  | [] => Raise (ZeroDivisionError "division by zero")
  | _ :: _ =>
      let total_sum := py_sum_scalars group_sums in
      let C := div (to_result (scalar_pow2 total_sum)) (of_int n) in
      let total_sq_sum := py_sum_scalars group_sq_sums in
      let SST := sub (to_result total_sq_sum) C in
      let SSTR :=
        sub (py_sum (map (fun '(s, sz) =>
                            div (to_result (scalar_pow2 s)) (of_int sz))
                         (combine group_sums group_sizes))) C in
      let SSE := sub SST SSTR in
      let df_treat := p - 1 in
      let df_error := n - p in
      let df_total := n - 1 in
      let MSTR := div SSTR (of_int df_treat) in
      let MSE := div SSE (of_int df_error) in
      let F_calculated := div MSTR MSE in
      Ok {| C := C; SST := SST; SSTR := SSTR; SSE := SSE;
            df_treat := df_treat; df_error := df_error;
            df_total := df_total;
            MSTR := MSTR; MSE := MSE; F_calculated := F_calculated |}
  end.
End Engine.

(** *** The algorithm of the specification, in its own words

    [p] groups, [n] observations in all; the sums of step 1 and step 2
    range over the pooled observations.  The sum of a list of numbers and
    the square of a number are written here as the specification reads,
    apart from the arrays of the program. *)
Section Specification.
Context {N : Type} `{Arith N}.

Definition sigma (a : list N) : N := fold_right add zero a.

Definition sq (x : N) : N := mul x x.

Definition pooled (groups : list (list N)) : list N := concat groups.

Definition spec_n (groups : list (list N)) : Z := len (pooled groups).
Definition spec_p (groups : list (list N)) : Z := len groups.

Definition spec_C (groups : list (list N)) : N :=
  div (sq (sigma (pooled groups))) (of_int (spec_n groups)).

Definition spec_SST (groups : list (list N)) : N :=
  sub (sigma (map sq (pooled groups))) (spec_C groups).

Definition spec_SSTR (groups : list (list N)) : N :=
  sub (sigma (map (fun g => div (sq (sigma g)) (of_int (len g))) groups))
      (spec_C groups).

Definition spec_SSE (groups : list (list N)) : N :=
  sub (spec_SST groups) (spec_SSTR groups).

Definition spec_MSTR (groups : list (list N)) : N :=
  div (spec_SSTR groups) (of_int (spec_p groups - 1)).

Definition spec_MSE (groups : list (list N)) : N :=
  div (spec_SSE groups) (of_int (spec_n groups - spec_p groups)).

Definition spec_F (groups : list (list N)) : N :=
  div (spec_MSTR groups) (spec_MSE groups).

(** The total sum of squares taken directly from the pooled values, as the
    sum of the squared deviations from the grand mean. *)
Definition grand_mean (groups : list (list N)) : N :=
  div (sigma (pooled groups)) (of_int (spec_n groups)).

Definition direct_SST (groups : list (list N)) : N :=
  sigma (map (fun x => sq (sub x (grand_mean groups))) (pooled groups)).
End Specification.

(** ** Python and pandas helpers *)

(** [range(lo, hi)]. *)
Definition py_range (lo hi : Z) : list Z :=
  map (fun i => lo + Z.of_nat i) (seq 0 (Z.to_nat (hi - lo))).

(** [str(i)] for an integer. *)
Definition str_of_int (i : Z) : string := NilEmpty.string_of_int (Z.to_int i).

(** The white space that [str.strip()] removes: the characters of one byte
    (codes 9 to 13 and 28 to 32), U+0085 and U+00A0 (two bytes), and
    U+1680, U+2000 to U+200A, U+2028, U+2029, U+202F, U+205F and U+3000
    (three bytes). *)
Definition is_space (c : ascii) : bool :=
  let n := nat_of_ascii c in
  ((9 <=? n) && (n <=? 13) || (28 <=? n) && (n <=? 32))%nat.

Definition is_space2 (c1 c2 : ascii) : bool :=
  let n1 := nat_of_ascii c1 in
  let n2 := nat_of_ascii c2 in
  ((n1 =? 194) && ((n2 =? 133) || (n2 =? 160)))%nat.

Definition is_space3 (c1 c2 c3 : ascii) : bool :=
  let n1 := nat_of_ascii c1 in
  let n2 := nat_of_ascii c2 in
  let n3 := nat_of_ascii c3 in
  ((n1 =? 225) && (n2 =? 154) && (n3 =? 128)
   || (n1 =? 226) && (n2 =? 128)
      && ((128 <=? n3) && (n3 <=? 138) || (n3 =? 168) || (n3 =? 169)
          || (n3 =? 175))
   || (n1 =? 226) && (n2 =? 129) && (n3 =? 159)
   || (n1 =? 227) && (n2 =? 128) && (n3 =? 128))%nat.

(** The string without the white space in front.  With [backwards] the
    string is read from its end, the bytes of a character in reverse. *)
Fixpoint strip_front (backwards : bool) (s : string) : string :=
  match s with
  | EmptyString => EmptyString
  | String c1 s1 =>
      if is_space c1 then strip_front backwards s1
      else
        match s1 with
        | EmptyString => s
        | String c2 s2 =>
            if (if backwards then is_space2 c2 c1 else is_space2 c1 c2)
            then strip_front backwards s2
            else
              match s2 with
              | EmptyString => s
              | String c3 s3 =>
                  if (if backwards then is_space3 c3 c2 c1
                      else is_space3 c1 c2 c3)
                  then strip_front backwards s3
                  else s
              end
        end
  end.

Fixpoint string_rev (s acc : string) : string :=
  match s with
  | EmptyString => acc
  | String c s' => string_rev s' (String c acc)
  end.

Definition lstrip (s : string) : string := strip_front false s.

Definition rstrip (s : string) : string :=
  string_rev (strip_front true (string_rev s EmptyString)) EmptyString.

Definition strip (s : string) : string := rstrip (lstrip s).

(** A column label: [read_csv(header=None)] numbers the columns, a header
    row or an assignment to [df.columns] names them. *)
Inductive label :=
| LInt (i : Z)
| LStr (s : string).

(** A data frame: the row index (with its name, [None] for the default
    [RangeIndex]) and the labelled columns, in order.  A cell holds the text
    of its field. *)
Record DataFrame := {
  index_name : option label;
  index : list string;
  columns : list (label * list string)
}.

(** [df.shape[1]]. *)
Definition shape1 (df : DataFrame) : Z := len (columns df).

(** Column [j] of a table of rows; a short row contributes a missing
    (empty) field. *)
Definition column_of (rows : list (list string)) (j : nat) : list string :=
  map (fun row => nth j row EmptyString) rows.

(** [pd.read_csv(file_path, header=..., index_col=...)] on the rows of fields
    that the file holds.  [header] is [true] for [header=0] and [false] for
    [header=None]; [index_col] is [true] for [index_col=0] and [false] when
    the argument is not given.  A file without any row has no columns to
    parse.  The table is read at the width of its first row: a shorter row
    is filled with missing fields, and what a longer row holds beyond that
    width is left out, where pandas does not accept the row as it stands.
    The names of a header row are taken as they stand (pandas makes
    repeated names distinct). *)
Definition read_csv (rows : list (list string)) (header index_col : bool)
  : result DataFrame :=
  match rows with
  | [] => Raise (ValueError "No columns to parse from file")
  | first :: rest =>
      let width := List.length first in
      let body := if header then rest else rows in
      let labels :=
        if header then map LStr first
        else map (fun j => LInt (Z.of_nat j)) (seq 0 width) in
      let cols :=
        combine labels (map (column_of body) (seq 0 width)) in
      if index_col then
        match cols with
        | [] => Raise (ValueError "Index 0 invalid")
        | (l, c) :: cols' =>
            Ok {| index_name := Some l; index := c; columns := cols' |}
        end
      else
        Ok {| index_name := None; index := []; columns := cols |}
  end.

(** [df.reset_index(inplace=True)]: the index becomes the first column,
    under its name ([index] when it has none). *)
Definition reset_index (df : DataFrame) : DataFrame :=
  match index_name df with
  | Some l =>
      {| index_name := None; index := [];
         columns := (l, index df) :: columns df |}
  | None =>
      let n :=
        match columns df with [] => 0 | (_, c) :: _ => len c end in
      {| index_name := None; index := [];
         columns := (LStr "index", map str_of_int (py_range 0 n))
                      :: columns df |}
  end.

(** [df.columns = names]. *)
Definition set_columns (df : DataFrame) (names : list label)
  : result DataFrame :=
  if (List.length names =? List.length (columns df))%nat then
    Ok {| index_name := index_name df; index := index df;
          columns := combine names (map snd (columns df)) |}
  else Raise (ValueError "Length mismatch").

(** ** [AnovaApp.load_csv]

    The part that builds [self.df] (lines 107-124); [has_header] and
    [has_index] are the values of the two radio buttons. *)
Definition group_names (count : Z) : list label :=
  map (fun i => LStr ("Group" ++ str_of_int i)) (py_range 0 count).

Definition load_csv (rows : list (list string)) (has_header has_index : string)
  : result DataFrame :=
  if String.eqb has_index "yes" then
    if String.eqb has_header "yes" then
      read_csv rows true true
    else
      df <- read_csv rows false true ;;
      let col_count := shape1 df in
      let df := reset_index df in
      set_columns df (group_names (col_count + 1))
  else
    if String.eqb has_header "yes" then
      read_csv rows true false
    else
      df <- read_csv rows false false ;;
      let col_count := shape1 df in
      set_columns df (group_names col_count).

(** ** [AnovaApp.perform_anova] *)

(** The literal [0.05], the binary64 number nearest to 5/100. *)
Definition default_alpha : F64.t := F64.div (F64.of_int 5) (F64.of_int 100).

(** [Series.dropna()] on a numeric column; [.values] is the array. *)
Definition dropna (c : ndarray) : ndarray :=
  match c with
  | Int64Array a => Int64Array a
  | Float64Array a => Float64Array (filter (fun x => negb (F64.isnan x)) a)
  end.

(** [Series.empty]. *)
Definition empty (c : ndarray) : bool := array_len c =? 0.

(** What pandas reads in a field: a 64-bit integer or a float. *)
Inductive number :=
| NInt (z : Z)
| NFloat (x : F64.t).

(** A row of the "Group Info" table. *)
Record group_info := {
  gi_group : label;
  gi_size : Z;
  gi_sum : scalar;
  gi_mean : F64.t
}.

(** The "ANOVA Results" table: the values of the core, the p-value of
    [scipy], the significance level and the decision. *)
Record anova_result := {
  table : anova_table F64.t;
  p_value : F64.t;
  alpha : F64.t;
  reject_H0 : string
}.

Definition msg_columns : string :=
  "At least two columns must contain numeric data.".

Definition msg_groups : string :=
  "At least two groups are required for ANOVA.".

Section PerformAnova.
(** [float(s)] of Python: [None] stands for its [ValueError]. *)
Variable py_float : string -> option F64.t.

(** The number that [read_csv] and [pd.to_numeric] read in a cell, if
    any; an integer outside the 64 bits counts as a float. *)
Variable parse_number : string -> option number.

(** [scipy.stats.f_oneway]: the F statistic and the p-value of the
    samples, which it takes as floats.  On degenerate samples it warns and
    returns NaN; it does not raise. *)
Variable f_oneway : list (list F64.t) -> F64.t * F64.t.

(** The function [pow] of the C library. *)
Variable pow : F64.t -> F64.t -> F64.t.

(** Lines 169-173. *)
Definition read_alpha (alpha_entry : string) : F64.t :=
  let alpha_str := strip alpha_entry in
  match py_float alpha_str with
  | Some a => a
  | None => default_alpha
  end.

(** The cells of a column as integers, when each of them reads as one. *)
Fixpoint all_int64 (c : list string) : option (list Z) :=
  match c with
  | [] => Some []
  | s :: c' =>
      match parse_number s, all_int64 c' with
      | Some (NInt z), Some a => if I64.in_range z then Some (z :: a) else None
      | _, _ => None
      end
  end.

(** A cell of a column of floats; what does not read as a number is NaN. *)
Definition float_cell (s : string) : F64.t :=
  match parse_number s with
  | Some (NInt z) => F64.of_int z
  | Some (NFloat x) => x
  | None => F64.nan
  end.

(** [pd.to_numeric(column, errors='coerce')]: a column of integers stays
    [int64], any other column is [float64]. *)
Definition to_numeric (c : list string) : ndarray :=
  match all_int64 c with
  | Some a => Int64Array a
  | None => Float64Array (map float_cell c)
  end.

(** [self.df.apply(pd.to_numeric, errors='coerce')]. *)
Definition numeric_only (df : DataFrame) : list (label * ndarray) :=
  map (fun '(l, c) => (l, to_numeric c)) (columns df).

(** Line 176.  The labels of a frame are distinct, so that
    [numeric_only[col]] is the column at the position of [col]. *)
Definition valid_cols (num : list (label * ndarray))
  : list (label * ndarray) :=
  filter (fun '(_, c) => negb (empty (dropna c))) num.

(** Lines 181-187: [group_names] and [group_list], built together. *)
Fixpoint build_groups (cols : list (label * ndarray))
  : list label * list ndarray :=
  match cols with
  | [] => ([], [])
  | (col, c) :: cols' =>
      let vals := dropna c in
      let '(names, groups) := build_groups cols' in
      if 0 <? array_len vals then (col :: names, vals :: groups)
      else (names, groups)
  end.

(** Lines 189-248: from the check on [group_list] to the result tables. *)
Definition anova_of_groups (alpha : F64.t) (group_names : list label)
    (group_list : list ndarray)
  : result (list group_info * anova_result) :=
  if len group_list <? 2 then Raise (ValueError msg_groups)
  else
    let group_info_df :=
      map (fun '(gname, gvals) =>
             {| gi_group := gname; gi_size := array_len gvals;
                gi_sum := ndarray_sum gvals;
                gi_mean := ndarray_mean gvals |})
          (combine group_names group_list) in
    let '(f_stat, p_value) := f_oneway (map as_float group_list) in
    t <- perform_anova_core (Arrays_np pow) group_list ;;
    Ok (group_info_df,
        {| table := t; p_value := p_value; alpha := alpha;
           reject_H0 := if F64.ltb p_value alpha then "Yes" else "No" |}).

Definition perform_anova (df : DataFrame) (alpha_entry : string)
  : result (list group_info * anova_result) :=
  let alpha := read_alpha alpha_entry in
  let numeric_only := numeric_only df in
  let valid_cols := valid_cols numeric_only in
  if len valid_cols <? 2 then Raise (ValueError msg_columns)
  else
    let '(group_names, group_list) := build_groups valid_cols in
    anova_of_groups alpha group_names group_list.
End PerformAnova.

(** *** A reader of plain decimal numerals

    [[-]digits[.digits]], read as the quotient of two integers; the result
    is the nearest binary64 number whenever both integers are below 2^53.
    It stands for the parsers of Python and pandas on such numerals. *)
Definition digit_of (c : ascii) : option Z :=
  let n := nat_of_ascii c in
  if ((48 <=? n) && (n <=? 57))%nat then Some (Z.of_nat n - 48) else None.

Fixpoint read_digits (s : string) (acc : Z) (count : Z)
  : option (Z * Z * string) :=
  match s with
  | EmptyString => Some (acc, count, EmptyString)
  | String c s' =>
      match digit_of c with
      | Some d => read_digits s' (10 * acc + d) (count + 1)
      | None => Some (acc, count, s)
      end
  end.

Definition read_unsigned (s : string) : option (Z * Z) :=
  match read_digits s 0 0 with
  | Some (ip, ni, EmptyString) => if 0 <? ni then Some (ip, 1) else None
  | Some (ip, ni, String "." s') =>
      match read_digits s' ip 0 with
      | Some (m, nf, EmptyString) =>
          if 0 <? ni + nf then Some (m, 10 ^ nf) else None
      | _ => None
      end
  | _ => None
  end.

Definition read_decimal (s : string) : option F64.t :=
  match s with
  | String "-" s' =>
      match read_unsigned s' with
      | Some (m, d) =>
          Some (SFopp (F64.div (F64.of_int m) (F64.of_int d)))
      | None => None
      end
  | _ =>
      match read_unsigned s with
      | Some (m, d) => Some (F64.div (F64.of_int m) (F64.of_int d))
      | None => None
      end
  end.

(** An integer numeral [[-]digits]. *)
Definition read_integer (s : string) : option Z :=
  let unsigned (s : string) :=
    match read_digits s 0 0 with
    | Some (ip, ni, EmptyString) => if 0 <? ni then Some ip else None
    | _ => None
    end in
  match s with
  | String "-" s' => option_map Z.opp (unsigned s')
  | _ => unsigned s
  end.

(** A cell read as pandas reads it: an integer numeral is an integer, any
    other decimal numeral a float. *)
Definition read_number (s : string) : option number :=
  match read_integer s with
  | Some z => Some (NInt z)
  | None => option_map NFloat (read_decimal s)
  end.

(** ** NumPy functions of the generator *)

(** [np.std(a, ddof=ddof)]: the deviations from the mean are squared and
    summed, the sum is divided by [max(n - ddof, 0)], then the square root. *)
Definition np_std (a : list F64.t) (ddof : Z) : F64.t :=
  let arrmean := F64.div (np_sum a) (F64.of_int (len a)) in
  let x := map (fun v => F64.sub v arrmean) a in
  let x := map (fun v => F64.mul v v) x in
  let rcount := Z.max (len a - ddof) 0 in
  F64.sqrt (F64.div (np_sum x) (F64.of_int rcount)).

Definition pow10 (d : Z) : F64.t := F64.of_int (10 ^ d).

(** [np.round(x, decimals)]: scale by the power of ten, [rint], scale back. *)
Definition np_round (x : F64.t) (decimals : Z) : F64.t :=
  if 0 <=? decimals then
    F64.div (F64.rint (F64.mul x (pow10 decimals))) (pow10 decimals)
  else
    F64.mul (F64.rint (F64.div x (pow10 (- decimals)))) (pow10 (- decimals)).

(** An integer as the mantissa of a (possibly very long) binary number. *)
Definition int_as_float (z : Z) : F64.t :=
  match z with
  | 0 => S754_zero false
  | Zpos p => S754_finite false p 0
  | Zneg p => S754_finite true p 0
  end.

(** The true division [a / b] of two Python integers: the binary64 number
    nearest to the quotient, computed on the integers themselves. *)
Definition py_truediv (a b : Z) : result F64.t :=
  if b =? 0 then Raise (ZeroDivisionError "division by zero")
  else
    let q := F64.div (int_as_float a) (int_as_float b) in
    if F64.is_inf q then
      Raise (OverflowError "integer division result too large for a float")
    else Ok q.

(** [data[key] = value] on a dictionary, kept in insertion order. *)
Fixpoint dict_set {V} (data : list (string * V)) (key : string) (value : V)
  : list (string * V) :=
  match data with
  | [] => [(key, value)]
  | (k, v) :: data' =>
      if String.eqb k key then (k, value) :: data'
      else (k, v) :: dict_set data' key value
  end.

(** ** [ANOVADataGenerator] *)

Module ANOVADataGenerator.

Record t := {
  d1 : Z; d2 : Z; m1 : Z; m2 : Z; y1 : Z; y2 : Z;
  replications : Z;
  tol_mean : F64.t;
  tol_std : F64.t;
  num_decimals : Z;
  num_treatments : Z;
  target_std : F64.t
}.

Definition __init__ (d1 d2 m1 m2 y1 y2 replications : Z)
    (tol_mean tol_std : F64.t) (num_decimals : Z) : result t :=
  let num_treatments := Z.max 4 (d1 + d2) in
  target_std <- py_truediv (m2 * d2) y2 ;;
  Ok {| d1 := d1; d2 := d2; m1 := m1; m2 := m2; y1 := y1; y2 := y2;
        replications := replications;
        tol_mean := tol_mean; tol_std := tol_std;
        num_decimals := num_decimals;
        num_treatments := num_treatments;
        target_std := target_std |}.

Section Sampling.
(** The state of [numpy.random] and its [normal(loc, scale, size)]:
    the drawn array or the exception, and the state left behind. *)
Variable RNG : Type.
Variable np_random_normal :
  RNG -> F64.t -> F64.t -> Z -> result (list F64.t) * RNG.

(** The condition of line 52. *)
Definition out_of_tolerance (self : t) (sample_mean sample_std : F64.t)
    (target_mean : Z) (target_std : F64.t) : bool :=
  F64.gtb (F64.abs (F64.sub sample_mean (F64.of_int target_mean)))
          (tol_mean self)
  || F64.gtb (F64.abs (F64.sub sample_std target_std)) (tol_std self).

(** The right-hand side of line 53, for one observation. *)
Definition rescale (sample_mean sample_std : F64.t) (target_mean : Z)
    (target_std : F64.t) (x : F64.t) : F64.t :=
  F64.add (F64.mul (F64.div (F64.sub x sample_mean) sample_std)
                   target_std)
          (F64.of_int target_mean).

Definition generate_observations (self : t) (target_mean : Z)
    (target_std : F64.t) (rng : RNG) : result (list F64.t) * RNG :=
  match np_random_normal rng (F64.of_int target_mean) target_std
                         (replications self) with
  | (Raise e, rng) => (Raise e, rng)
  | (Ok observations, rng) =>
      let sample_mean := np_mean observations in
      let sample_std := np_std observations 1 in
      let observations :=
        if out_of_tolerance self sample_mean sample_std
                            target_mean target_std
        then map (rescale sample_mean sample_std target_mean target_std)
                 observations
        else observations in
      let observations :=
        map (fun x => np_round x (num_decimals self)) observations in
      (Ok observations, rng)
  end.

Definition treatment_name (i : Z) : string :=
  "Treatment_" ++ str_of_int i.

(** The loop of [generate_data] over the treatments still to draw. *)
Fixpoint generate_loop (self : t) (treatments : list Z)
    (data : list (string * list F64.t)) (rng : RNG)
  : result (list (string * list F64.t)) * RNG :=
  match treatments with
  | [] => (Ok data, rng)
  | i :: treatments' =>
      let target_mean := m2 self * d2 self + i * y2 self in
      match generate_observations self target_mean (target_std self)
                                  rng with
      | (Raise e, rng) => (Raise e, rng)
      | (Ok observations, rng) =>
          generate_loop self treatments'
            (dict_set data (treatment_name i) observations) rng
      end
  end.

(** The returned frame has the keys of [data] as its columns. *)
Definition generate_data (self : t) (rng : RNG)
  : result (list (string * list F64.t)) * RNG :=
  generate_loop self (py_range 1 (num_treatments self + 1)) [] rng.
End Sampling.
End ANOVADataGenerator.

(** ** [DataGeneratorGUI.generate_data]

    From the construction of the generator (line 189) to the frame that is
    then written to the file; the digits are those of the three menus. *)
Module DataGeneratorGUI.
Section Sampling.
Variable RNG : Type.
Variable np_random_normal :
  RNG -> F64.t -> F64.t -> Z -> result (list F64.t) * RNG.

Definition generate_data (d1 d2 m1 m2 y1 y2 replications : Z)
    (tol_mean tol_std : F64.t) (num_decimals : Z) (rng : RNG)
  : result (list (string * list F64.t)) * RNG :=
  match ANOVADataGenerator.__init__ d1 d2 m1 m2 y1 y2 replications
                                    tol_mean tol_std num_decimals with
  | Raise e => (Raise e, rng)
  | Ok generator =>
      ANOVADataGenerator.generate_data RNG np_random_normal generator rng
  end.
End Sampling.
End DataGeneratorGUI.

(** ** Vocabulary of the specification *)

(** A column retains a numeric value after the cell-by-cell coercion: some
    cell reads as a number that is not NaN. *)
Definition retains_numeric (parse_number : string -> option number)
    (c : list string) : bool :=
  existsb (fun s => match parse_number s with
                    | Some (NInt _) => true
                    | Some (NFloat x) => negb (F64.isnan x)
                    | None => false
                    end) c.

(** Every observation of every group is the same value [c]: no variance
    within a group, and equal group means. *)
Definition all_observations_equal (groups : list (list F64.t)) (c : F64.t)
  : Prop :=
  Forall (Forall (fun x => x = c)) groups.

(** A binary64 number in canonical form, as every NumPy value is. *)
Definition canonical (x : F64.t) : Prop :=
  valid_binary F64.prec F64.emax x = true.

(** The groups that [perform_anova] hands to the core, as arrays and as
    the lists of floats that [f_oneway] sees. *)
Definition arrays_of (parse_number : string -> option number) (df : DataFrame)
  : list ndarray :=
  snd (build_groups (valid_cols (numeric_only parse_number df))).

Definition groups_of (parse_number : string -> option number) (df : DataFrame)
  : list (list F64.t) :=
  map as_float (arrays_of parse_number df).

(** The columns of a frame that retain a numeric value. *)
Definition numeric_columns (parse_number : string -> option number)
    (df : DataFrame) : list (label * list string) :=
  filter (fun c => retains_numeric parse_number (snd c)) (columns df).

(** Column [col] of the generated table is the sample of treatment [i]:
    it bears the name of [i] and holds what [generate_observations] returns
    for the target mean [m2 * d2 + i * y2] and the shared target standard
    deviation, from some state of the random source. *)
Definition column_of_treatment (RNG : Type)
    (np_random_normal :
       RNG -> F64.t -> F64.t -> Z -> result (list F64.t) * RNG)
    (self : ANOVADataGenerator.t) (i : Z) (col : string * list F64.t)
  : Prop :=
  fst col = ANOVADataGenerator.treatment_name i /\
  exists rng rng',
    ANOVADataGenerator.generate_observations RNG np_random_normal self
      (ANOVADataGenerator.m2 self * ANOVADataGenerator.d2 self
       + i * ANOVADataGenerator.y2 self)
      (ANOVADataGenerator.target_std self) rng
    = (Ok (snd col), rng').

(** ** Concrete collaborators for the examples *)

(** A C library whose [pow] is correctly rounded at the exponent 2, the
    only one the program asks for. *)
Definition pow_cr (x y : F64.t) : F64.t :=
  if SFeqb y (F64.of_int 2) then F64.mul x x else F64.nan.

(** What [f_oneway] returns on samples that are all the same constant. *)
Definition f_oneway_degenerate (_ : list (list F64.t)) : F64.t * F64.t :=
  (F64.nan, F64.nan).

(** A sampler that replays the recorded draws [tape 0], [tape 1], ...; its
    state is the position on the tape.  Like NumPy it refuses a negative
    size and returns an empty array for the size 0. *)
Definition replay (tape : nat -> F64.t) (pos : nat) (loc scale : F64.t)
    (size : Z) : result (list F64.t) * nat :=
  if size <? 0 then
    (Raise (ValueError "negative dimensions are not allowed"), pos)
  else
    (Ok (map tape (seq pos (Z.to_nat size))), (pos + Z.to_nat size)%nat).

(** The recorded draws 0, 1, 2, ... *)
Definition tape (n : nat) : F64.t := F64.of_int (Z.of_nat n).

(** The generator of the 12th of March of a year ending in 4, with both
    tolerances at 0.05 and two decimals: four treatments, target standard
    deviation 6/4, target means 10, 14, 18, 22. *)
Definition demo_generator (replications : Z) : ANOVADataGenerator.t :=
  {| ANOVADataGenerator.d1 := 1; ANOVADataGenerator.d2 := 2;
     ANOVADataGenerator.m1 := 0; ANOVADataGenerator.m2 := 3;
     ANOVADataGenerator.y1 := 2; ANOVADataGenerator.y2 := 4;
     ANOVADataGenerator.replications := replications;
     ANOVADataGenerator.tol_mean := default_alpha;
     ANOVADataGenerator.tol_std := default_alpha;
     ANOVADataGenerator.num_decimals := 2;
     ANOVADataGenerator.num_treatments := 4;
     ANOVADataGenerator.target_std :=
       F64.div (F64.of_int 6) (F64.of_int 4) |}.

Definition frame_of (cols : list (label * list string)) : DataFrame :=
  {| index_name := None; index := []; columns := cols |}.

(** Two groups whose four observations are all 1. *)
Definition constant_frame : DataFrame :=
  frame_of [(LStr "A", ["1"; "1"]); (LStr "B", ["1"; "1"])]%string.

(** One numeric column and one column of text. *)
Definition one_numeric_frame : DataFrame :=
  frame_of [(LStr "A", ["1"; "2"]); (LStr "B", ["x"; "y"])]%string.

(** The frame of the groups A, B, C of the specification. *)
Definition abc_frame : DataFrame :=
  frame_of [(LStr "A", ["1"; "2"; "3"]);
            (LStr "B", ["5"; "6"; "7"]);
            (LStr "C", ["9"; "10"; "11"])]%string.

(** What [f_oneway] returns on A, B, C, up to the last bits of the p-value:
    F = 48 and, with 2 and 6 degrees of freedom, p = (1 + 48/3)^-3. *)
Definition f_oneway_abc (_ : list (list F64.t)) : F64.t * F64.t :=
  (F64.of_int 48, F64.div (F64.of_int 1) (F64.of_int 4913)).

(** The groups A, B, C of the specification. *)
Definition abc_groups {N} `{Arith N} : list (list N) :=
  [[of_int 1; of_int 2; of_int 3];
   [of_int 5; of_int 6; of_int 7];
   [of_int 9; of_int 10; of_int 11]].

(** Small groups on which the last bit of [SSTR + SSE] is lost. *)
Definition rounding_groups : list (list F64.t) :=
  [[F64.of_int 0; F64.of_int 2];
   [F64.of_int 0; F64.of_int 0; F64.of_int 5]].

(** Groups far from the origin, on which [SST] cancels. *)
Definition offset_groups : list (list F64.t) :=
  [[F64.of_int 100000000; F64.of_int 100000001];
   [F64.of_int 100000002; F64.of_int 100000003]].

(** ** The rest of [AnovaApp] *)

(** [AnovaApp.center_window]: the geometry string handed to Tk, from the
    screen size that [winfo_screenwidth] and [winfo_screenheight] report.
    [//] is the floor division. *)
Definition center_window (screen_width screen_height width height : Z)
  : string :=
  let x := screen_width / 2 - width / 2 in
  let y := screen_height / 2 - height / 2 in
  (str_of_int width ++ "x" ++ str_of_int height
   ++ "+" ++ str_of_int x ++ "+" ++ str_of_int y)%string.

(** [l[i]] on a list: a negative index counts from the end, and [None]
    stands for the [IndexError]. *)
Definition py_getitem {A} (l : list A) (i : Z) : option A :=
  if (0 <=? i) && (i <? len l) then nth_error l (Z.to_nat i)
  else if (- len l <=? i) && (i <? 0) then nth_error l (Z.to_nat (len l + i))
  else None.

(** The class attribute [anova_steps]. *)
Definition anova_steps : list string :=
  ["Step 1: C = (ΣX)² / n  (Correction Factor)";
   "Step 2: SST = Σ(X²) - C  (Total SS)";
   "Step 3: SSTR = Σ((ΣXᵢ)² / nᵢ) - C  (Treatment SS)";
   "Step 4: SSE = SST - SSTR  (Error SS)";
   "Step 5: F = [SSTR/(p−1)] / [SSE/(n−p)]"]%string.

(** What [show_steps] reads and writes: [self.current_step] and the text of
    [self.step_label]. *)
Record stepper := {
  current_step : Z;
  step_label : string
}.

(** [AnovaApp.show_steps] over the steps [self.anova_steps]: the new state
    and whether the method asked the event loop to call it again after two
    seconds; [None] stands for an [IndexError]. *)
Definition show_steps (steps : list string) (st : stepper)
  : option (stepper * bool) :=
  if current_step st <? len steps then
    match py_getitem steps (current_step st) with
    | Some text =>
        Some ({| current_step := current_step st + 1; step_label := text |},
              true)
    | None => None
    end
  else Some (st, false).

(** The event loop serving the timer of [show_steps] for at most [ticks]
    calls: the texts shown, in order, and the state left. *)
Fixpoint timer_loop (steps : list string) (ticks : nat) (st : stepper)
  : option (list string * stepper) :=
  match ticks with
  | O => Some ([], st)
  | S ticks' =>
      match show_steps steps st with
      | None => None
      | Some (st', false) => Some ([], st')
      | Some (st', true) =>
          match timer_loop steps ticks' st' with
          | Some (shown, final) => Some (step_label st' :: shown, final)
          | None => None
          end
      end
  end.

(** The state in which [run_anova] starts [show_steps]. *)
Definition stepper_reset : stepper :=
  {| current_step := 0; step_label := EmptyString |}.

(** ** The rest of [DataGeneratorGUI] *)

(** [f"{i:02d}"]: at least two characters, zeros in front. *)
Definition fmt02 (i : Z) : string :=
  if (0 <=? i) && (i <? 10) then ("0" ++ str_of_int i)%string
  else str_of_int i.

(** The options of the three menus of [create_widgets]. *)
Definition day_options : list string := map fmt02 (py_range 1 32).
Definition month_options : list string := map fmt02 (py_range 1 13).
Definition year_options : list string := map fmt02 (py_range 0 100).

(** [str(e)]. *)
Definition str_of_exception (e : exception) : string :=
  match e with
  | ValueError msg => msg
  | ZeroDivisionError msg => msg
  | OverflowError msg => msg
  end.

(** What the handler of the button leaves on the screen: the success
    message for the file written, or the error dialog. *)
Inductive gui_outcome :=
| Saved (filename : string) (table : list (string * list F64.t))
| ErrorDialog (message : string).

Definition default_prefix : string := "220003037".

(** [prefix.strip() or "220003037"], then the name of the file. *)
Definition csv_filename (prefix_entry timestamp : string) : string :=
  let file_prefix :=
    match strip prefix_entry with
    | EmptyString => default_prefix
    | p => p
    end in
  (file_prefix ++ "_anova_data_" ++ timestamp ++ ".csv")%string.

Section GeneratorDialog.
(** The text of the [ValueError] of [int] on a string that is no numeral. *)
Variable int_error : string -> string.

Variable RNG : Type.
Variable np_random_normal :
  RNG -> F64.t -> F64.t -> Z -> result (list F64.t) * RNG.

(** [int(s[i])] on an ASCII string: the digit, or the text of the
    [IndexError] or [ValueError]. *)
Definition digit_at (s : string) (i : nat) : Z + string :=
  match String.get i s with
  | None => inr "string index out of range"%string
  | Some c =>
      match digit_of c with
      | Some d => inl d
      | None => inr (int_error (String c EmptyString))
      end
  end.

(** [int(s[0]), int(s[1])]. *)
Definition two_digits (s : string) : (Z * Z) + string :=
  match digit_at s 0 with
  | inr msg => inr msg
  | inl a =>
      match digit_at s 1 with
      | inr msg => inr msg
      | inl b => inl (a, b)
      end
  end.

Definition error_dialog (msg : string) : gui_outcome :=
  ErrorDialog ("An error occurred: " ++ msg)%string.

(** [DataGeneratorGUI.generate_data], whole (lines 169-200): the values of
    the menus and entries, the time stamp taken once the table is there, and
    the state of the random source.  The entries are given as the numbers
    they hold, and the write of the file is taken to succeed. *)
Definition gui_generate_data (day_str month_str year_str : string)
    (replications : Z) (tol_mean tol_std : F64.t) (num_decimals : Z)
    (prefix_entry timestamp : string) (rng : RNG) : gui_outcome * RNG :=
  match two_digits day_str with
  | inr msg => (error_dialog msg, rng)
  | inl (d1, d2) =>
      match two_digits month_str with
      | inr msg => (error_dialog msg, rng)
      | inl (m1, m2) =>
          match two_digits year_str with
          | inr msg => (error_dialog msg, rng)
          | inl (y1, y2) =>
              match DataGeneratorGUI.generate_data RNG np_random_normal
                      d1 d2 m1 m2 y1 y2 replications tol_mean tol_std
                      num_decimals rng with
              | (Raise e, rng) => (error_dialog (str_of_exception e), rng)
              | (Ok df, rng) =>
                  (Saved (csv_filename prefix_entry timestamp) df, rng)
              end
          end
      end
  end.
End GeneratorDialog.

(** Two groups of a single observation each. *)
Definition single_value_frame : DataFrame :=
  frame_of [(LStr "A", ["1"]); (LStr "B", ["3"])]%string.

(** ** More vocabulary *)

(** The columns of a frame reduced to the numbers they retain, without the
    columns that retain none. *)
Definition cleaned_arrays (parse_number : string -> option number)
    (df : DataFrame) : list (label * ndarray) :=
  filter (fun '(_, vals) => negb (empty vals))
         (map (fun '(l, c) => (l, dropna (to_numeric parse_number c)))
              (columns df)).

Definition cleaned (parse_number : string -> option number) (df : DataFrame)
  : list (label * list F64.t) :=
  map (fun '(l, vals) => (l, as_float vals)) (cleaned_arrays parse_number df).

(** The row of the "Group Info" table for a group. *)
Definition group_info_of (g : label * ndarray) : group_info :=
  {| gi_group := fst g; gi_size := array_len (snd g);
     gi_sum := ndarray_sum (snd g);
     gi_mean := ndarray_mean (snd g) |}.

(** A cell that is not numeric: it reads as no number, or as NaN. *)
Definition not_numeric (parse_number : string -> option number) (s : string)
  : Prop :=
  match parse_number s with
  | Some (NInt _) => False
  | Some (NFloat x) => F64.isnan x = true
  | None => True
  end.

(** The mean of a group and the sum, over the groups, of the squared
    deviations from the mean of the group. *)
Definition group_mean {N} `{Arith N} (g : list N) : N :=
  div (sigma g) (of_int (len g)).

Definition within_SS {N} `{Arith N} (groups : list (list N)) : N :=
  sigma (map (fun g => sigma (map (fun x => sq (sub x (group_mean g))) g))
             groups).

(** The sampler returns arrays of the size it is asked for. *)
Definition honours_size (RNG : Type)
    (np_random_normal :
       RNG -> F64.t -> F64.t -> Z -> result (list F64.t) * RNG) : Prop :=
  forall rng loc scale size xs rng',
    np_random_normal rng loc scale size = (Ok xs, rng') -> len xs = size.

(** The sampler raises nothing for the size [size]. *)
Definition never_raises (RNG : Type)
    (np_random_normal :
       RNG -> F64.t -> F64.t -> Z -> result (list F64.t) * RNG)
    (size : Z) : Prop :=
  forall rng loc scale,
    exists xs rng', np_random_normal rng loc scale size = (Ok xs, rng').

(** ** Integer columns, in the words of the specification

    The sums of the specification on integers, taken exactly; a value of
    the table is rounded where a quotient or a difference is formed, and
    the quotients of the groups are added from the left, starting from 0. *)
Definition zsum (a : list Z) : Z := fold_right Z.add 0 a.

Definition integer_table (groups : list (list Z)) : anova_table F64.t :=
  let observations := concat groups in
  let n := len observations in
  let p := len groups in
  let C := F64.div (F64.of_int (zsum observations ^ 2)) (F64.of_int n) in
  let SST :=
    F64.sub (F64.of_int (zsum (map (fun x => x ^ 2) observations))) C in
  let SSTR :=
    F64.sub
      (fold_left F64.add
         (map (fun g => F64.div (F64.of_int (zsum g ^ 2))
                                (F64.of_int (len g))) groups)
         (F64.of_int 0)) C in
  let SSE := F64.sub SST SSTR in
  let MSTR := F64.div SSTR (F64.of_int (p - 1)) in
  let MSE := F64.div SSE (F64.of_int (n - p)) in
  {| C := C; SST := SST; SSTR := SSTR; SSE := SSE;
     df_treat := p - 1; df_error := n - p; df_total := n - 1;
     MSTR := MSTR; MSE := MSE; F_calculated := F64.div MSTR MSE |}.

(** Integers as exact rationals. *)
Definition rationals (groups : list (list Z)) : list (list Qc) :=
  map (map (fun z => Q2Qc (inject_Z z))) groups.

(** Two columns of integers whose total has a square beyond 64 bits. *)
Definition overflow_groups : list (list Z) := [[3037000500; 1]; [2; 3]].

(** The groups A, B, C of the specification, as integers. *)
Definition abc_integers : list (list Z) := [[1; 2; 3]; [5; 6; 7]; [9; 10; 11]].

(** The integers near 10^8 of [offset_groups]. *)
Definition offset_integers : list (list Z) :=
  [[100000000; 100000001]; [100000002; 100000003]].

(** A recorded sample of eight draws around 10, in tenths, and the sampler
    that replays it. *)
Definition tenth (m : Z) : F64.t := F64.div (F64.of_int m) (F64.of_int 10).

Definition sample8 : list F64.t :=
  [tenth 115; tenth 89; tenth 107; tenth 81;
   tenth 111; tenth 85; tenth 95; tenth 121].

Definition tape8 (n : nat) : F64.t := nth n sample8 F64.nan.

(** Hundredths, as [np.round] leaves them. *)
Definition hundredth (m : Z) : F64.t :=
  F64.div (F64.of_int m) (F64.of_int 100).

(** A string of one-byte white space only. *)
Fixpoint only_spaces (s : string) : bool :=
  match s with
  | EmptyString => true
  | String c s' => is_space c && only_spaces s'
  end.

(** A prefix entry that holds a no-break space (U+00A0) and blanks. *)
Definition blank_prefix : string :=
  String (ascii_of_nat 194) (String (ascii_of_nat 160) "  ").

(** Every row of the file has as many fields as the first one: the tables
    that the application is made for. *)
Definition rectangular (rows : list (list string)) : Prop :=
  Forall (fun row => List.length row = List.length (hd [] rows)) rows.

(** * Properties *)

(** ** Lists and the integer sums *)

Lemma combine_map_same {A B D} (f : A -> B) (g : A -> D) (l : list A) :
  combine (map f l) (map g l) = map (fun x => (f x, g x)) l.
Proof.
  induction l as [|x l IH]; simpl; [reflexivity | now rewrite IH].
Qed.

Lemma len_nil {A} : len (@nil A) = 0.
Proof. reflexivity. Qed.

Lemma len_cons {A} (x : A) (l : list A) : len (x :: l) = 1 + len l.
Proof. unfold len; simpl List.length; lia. Qed.

Lemma len_app {A} (l1 l2 : list A) : len (l1 ++ l2) = len l1 + len l2.
Proof. unfold len; rewrite length_app; lia. Qed.

Lemma len_nonneg {A} (l : list A) : 0 <= len l.
Proof. unfold len; lia. Qed.

Lemma len_map {A B} (f : A -> B) (l : list A) : len (map f l) = len l.
Proof. unfold len; now rewrite length_map. Qed.

Lemma fold_left_Zadd_acc (l : list Z) (a : Z) :
  fold_left Z.add l a = a + fold_left Z.add l 0.
Proof.
  revert a; induction l as [|x l IH]; intros a; simpl; [lia|].
  rewrite (IH (a + x)), (IH x); lia.
Qed.

Lemma py_sum_int_sizes {A} (groups : list (list A)) :
  py_sum_int (map len groups) = len (concat groups).
Proof.
  unfold py_sum_int.
  induction groups as [|g groups IH]; simpl; [reflexivity|].
  rewrite fold_left_Zadd_acc, IH, len_app; lia.
Qed.

Lemma nonempty_In {A} (l : list A) : l <> [] -> exists x, In x l.
Proof. destruct l as [|x l]; [congruence|]. exists x. now left. Qed.

(** The table of a list of groups that is not empty. *)
Lemma perform_anova_core_eq {A S N : Type} {HN : Arith N}
    (np : Arrays A S N) (group_list : list A) :
  group_list <> [] ->
  perform_anova_core np group_list
  = let group_sums := map array_sum group_list in
    let group_sq_sums :=
      map (fun g => array_sum (array_square g)) group_list in
    let group_sizes := map size group_list in
    let p := len group_list in
    let n := py_sum_int group_sizes in
    let total_sum := py_sum_scalars np group_sums in
    let C := div (to_result (scalar_pow2 total_sum)) (of_int n) in
    let total_sq_sum := py_sum_scalars np group_sq_sums in
    let SST := sub (to_result total_sq_sum) C in
    let SSTR :=
      sub (py_sum (map (fun '(s, sz) =>
                          div (to_result (scalar_pow2 s)) (of_int sz))
                       (combine group_sums group_sizes))) C in
    let SSE := sub SST SSTR in
    let MSTR := div SSTR (of_int (p - 1)) in
    let MSE := div SSE (of_int (n - p)) in
    Ok {| C := C; SST := SST; SSTR := SSTR; SSE := SSE;
          df_treat := p - 1; df_error := n - p; df_total := n - 1;
          MSTR := MSTR; MSE := MSE; F_calculated := div MSTR MSE |}.
Proof. destruct group_list; [congruence | reflexivity]. Qed.

(** ** The core in exact arithmetic *)

Lemma Qc_fold_left_acc (l : list Qc) (a : Qc) :
  fold_left Qcplus l a = (a + fold_left Qcplus l (Q2Qc 0))%Qc.
Proof.
  revert a; induction l as [|x l IH]; intros a; cbn [fold_left].
  - ring.
  - rewrite (IH (a + x)%Qc), (IH (Q2Qc 0 + x)%Qc). ring.
Qed.

Lemma Qc_fold_left_sigma (l : list Qc) :
  fold_left Qcplus l (Q2Qc 0) = sigma l.
Proof.
  induction l as [|x l IH]; [reflexivity|].
  cbn [fold_left]. rewrite Qc_fold_left_acc, IH.
  unfold sigma; cbn [fold_right add zero Arith_Qc]. ring.
Qed.

Lemma Qc_py_sum_sigma (l : list Qc) : py_sum l = sigma l.
Proof. exact (Qc_fold_left_sigma l). Qed.

Lemma Qc_sigma_cons (x : Qc) (l : list Qc) :
  sigma (x :: l) = (x + sigma l)%Qc.
Proof. reflexivity. Qed.

Lemma Qc_sigma_app (l1 l2 : list Qc) :
  sigma (l1 ++ l2) = (sigma l1 + sigma l2)%Qc.
Proof.
  induction l1 as [|x l1 IH]; cbn [app].
  - unfold sigma at 2; cbn [fold_right zero Arith_Qc]. ring.
  - rewrite !Qc_sigma_cons, IH. ring.
Qed.

Lemma Qc_sigma_concat (groups : list (list Qc)) :
  sigma (map sigma groups) = sigma (concat groups).
Proof.
  induction groups as [|g groups IH]; [reflexivity|].
  cbn [map concat]. now rewrite Qc_sigma_cons, Qc_sigma_app, IH.
Qed.

(** The table of the core in exact arithmetic, with both totals read on
    the pooled observations. *)
Lemma perform_anova_core_pooled (groups : list (list Qc)) :
  groups <> [] ->
  perform_anova_core Arrays_Qc groups
  = Ok {| C := spec_C groups;
          SST := spec_SST groups;
          SSTR := spec_SSTR groups;
          SSE := spec_SSE groups;
          df_treat := spec_p groups - 1;
          df_error := spec_n groups - spec_p groups;
          df_total := spec_n groups - 1;
          MSTR := spec_MSTR groups;
          MSE := spec_MSE groups;
          F_calculated := spec_F groups |}.
Proof.
  intros Hne.
  assert (Hsum : py_sum_scalars Arrays_Qc (map (array_sum (Arrays := Arrays_Qc)) groups)
                 = sigma (pooled groups)).
  { unfold py_sum_scalars.
    cbn [scalar_add int_zero array_sum Arrays_Qc].
    rewrite Qc_fold_left_sigma, <- Qc_sigma_concat. f_equal.
    apply map_ext. intros g. apply Qc_fold_left_sigma. }
  assert (Hsq : py_sum_scalars Arrays_Qc
                  (map (fun g => array_sum (Arrays := Arrays_Qc) (array_square (Arrays := Arrays_Qc) g)) groups)
                = sigma (map sq (pooled groups))).
  { unfold py_sum_scalars, pooled.
    cbn [scalar_add int_zero array_sum array_square Arrays_Qc].
    rewrite Qc_fold_left_sigma, concat_map, <- Qc_sigma_concat, map_map.
    f_equal. apply map_ext. intros g. apply Qc_fold_left_sigma. }
  assert (Htr : py_sum (map (fun '(s, sz) =>
                               div (to_result (Arrays := Arrays_Qc) (scalar_pow2 (Arrays := Arrays_Qc) s)) (of_int sz))
                            (combine (map (array_sum (Arrays := Arrays_Qc)) groups)
                                     (map (size (Arrays := Arrays_Qc)) groups)))
                = sigma (map (fun g => div (sq (sigma g)) (of_int (len g)))
                             groups)).
  { rewrite Qc_py_sum_sigma, combine_map_same, map_map. f_equal.
    apply map_ext. intros g.
    cbn [to_result scalar_pow2 array_sum size Arrays_Qc].
    now rewrite Qc_fold_left_sigma. }
  rewrite perform_anova_core_eq by exact Hne. cbv zeta.
  rewrite Hsum, Hsq, Htr.
  cbn [size Arrays_Qc]. rewrite py_sum_int_sizes.
  reflexivity.
Qed.

(** ** The core on columns of integers *)

Lemma pow2_63 : 2 ^ 63 = 9223372036854775808.
Proof. reflexivity. Qed.

Lemma wrap_small (z : Z) : - 2 ^ 63 <= z < 2 ^ 63 -> I64.wrap z = z.
Proof.
  intros Hz. unfold I64.wrap. rewrite Z.mod_small; [lia|].
  change (2 ^ 64) with (2 * 2 ^ 63). lia.
Qed.

Lemma zsum_cons (x : Z) (l : list Z) : zsum (x :: l) = x + zsum l.
Proof. reflexivity. Qed.

Lemma zsum_app (l1 l2 : list Z) : zsum (l1 ++ l2) = zsum l1 + zsum l2.
Proof.
  induction l1 as [|x l1 IH]; cbn [app]; [reflexivity|].
  rewrite !zsum_cons, IH. lia.
Qed.

Lemma zsum_concat (groups : list (list Z)) :
  zsum (map zsum groups) = zsum (concat groups).
Proof.
  induction groups as [|g groups IH]; [reflexivity|].
  cbn [map concat]. now rewrite zsum_cons, zsum_app, IH.
Qed.

Lemma zsum_abs (l : list Z) : Z.abs (zsum l) <= zsum (map Z.abs l).
Proof.
  induction l as [|x l IH]; [reflexivity|].
  cbn [map]. rewrite !zsum_cons. lia.
Qed.

Lemma zsum_abs_nonneg (l : list Z) : 0 <= zsum (map Z.abs l).
Proof.
  induction l as [|x l IH]; [reflexivity|].
  cbn [map]. rewrite zsum_cons. lia.
Qed.

Lemma zsum_abs_bound (l : list Z) (M : Z) :
  Forall (fun x => Z.abs x <= M) l -> zsum (map Z.abs l) <= len l * M.
Proof.
  induction 1 as [|x l Hx _ IH]; [reflexivity|].
  cbn [map]. rewrite zsum_cons, len_cons. lia.
Qed.

(** Additions that stay within 64 bits give the sum of the integers. *)
Lemma I64_sum_exact (l : list Z) (acc : Z) :
  Z.abs acc + zsum (map Z.abs l) < 2 ^ 63 ->
  fold_left I64.add l acc = acc + zsum l.
Proof.
  revert acc; induction l as [|x l IH]; intros acc Hb; cbn [fold_left].
  - cbn [zsum fold_right]. lia.
  - cbn [map] in Hb. rewrite zsum_cons in Hb.
    pose proof (zsum_abs_nonneg l) as Hl.
    unfold I64.add at 2. rewrite wrap_small by lia.
    rewrite IH by lia. rewrite zsum_cons. lia.
Qed.

Lemma fold_scalar_add_int (l : list Z) (acc : Z) :
  fold_left scalar_add_np (map Int64 l) (Int64 acc)
  = Int64 (fold_left I64.add l acc).
Proof.
  revert acc; induction l as [|x l IH]; intros acc; [reflexivity|].
  cbn [map fold_left scalar_add_np]. apply IH.
Qed.

Section IntegerColumns.
Variable pow : F64.t -> F64.t -> F64.t.
Variable groups : list (list Z).
Variable M : Z.
Hypothesis Hne : Forall (fun g => g <> []) groups.
Hypothesis Hsmall : Forall (Forall (fun x => Z.abs x <= M)) groups.
Hypothesis Hbound : (len (concat groups) * M) ^ 2 < 2 ^ 63.

Lemma small_group (g : list Z) :
  In g groups ->
  Forall (fun x => Z.abs x <= M) g /\ 1 <= len g <= len (concat groups).
Proof.
  intros Hin. rewrite Forall_forall in Hne, Hsmall.
  split; [now apply Hsmall|].
  specialize (Hne g Hin).
  apply in_split in Hin as (l1 & l2 & ->).
  rewrite concat_app; cbn [concat]. rewrite !len_app.
  pose proof (len_nonneg (concat l1)). pose proof (len_nonneg (concat l2)).
  destruct g as [|x g]; [congruence|]. rewrite len_cons.
  pose proof (len_nonneg g). lia.
Qed.

Lemma small_concat : Forall (fun x => Z.abs x <= M) (concat groups).
Proof.
  apply Forall_concat. exact Hsmall.
Qed.

Lemma bound_nonneg : 0 <= len (concat groups) * M < 2 ^ 63.
Proof.
  pose proof (len_nonneg (concat groups)) as Hn.
  pose proof (zsum_abs_nonneg (concat groups)) as H0.
  pose proof (zsum_abs_bound _ _ small_concat) as H1.
  rewrite pow2_63 in *. nia.
Qed.

Lemma group_sum_exact (g : list Z) :
  In g groups ->
  fold_left I64.add g 0 = zsum g /\
  Z.abs (zsum g) <= len g * M /\
  I64.mul (zsum g) (zsum g) = zsum g ^ 2.
Proof.
  intros Hin. destruct (small_group g Hin) as [Hg Hlen].
  pose proof (zsum_abs_bound g M Hg) as Hb.
  pose proof (zsum_abs g) as Ha.
  pose proof bound_nonneg as Hn.
  pose proof Hbound as Hsq. rewrite pow2_63 in *.
  assert (HM : 0 <= M).
  { destruct g as [|x g']; [rewrite len_nil in Hlen; lia|].
    inversion Hg; subst. lia. }
  split; [|split].
  - rewrite I64_sum_exact; [lia|]. rewrite pow2_63. change (Z.abs 0) with 0. nia.
  - lia.
  - unfold I64.mul. rewrite wrap_small; [lia|]. rewrite pow2_63.
    assert (Z.abs (zsum g) <= len (concat groups) * M) by nia.
    nia.
Qed.

Lemma element_square_exact (x : Z) :
  In x (concat groups) -> I64.mul x x = x ^ 2 /\ Z.abs (x ^ 2) <= M ^ 2.
Proof.
  intros Hin. pose proof small_concat as Hc. rewrite Forall_forall in Hc.
  specialize (Hc x Hin).
  assert (Hn : 1 <= len (concat groups)).
  { destruct (concat groups); [destruct Hin|].
    rewrite len_cons. pose proof (len_nonneg l). lia. }
  pose proof Hbound as Hsq. rewrite pow2_63 in Hsq.
  assert (H2 : x ^ 2 <= M ^ 2) by nia.
  split; [|nia].
  unfold I64.mul. rewrite wrap_small; [lia|]. rewrite pow2_63. nia.
Qed.

Lemma group_squares_exact (g : list Z) :
  In g groups ->
  fold_left I64.add (map (fun x => I64.mul x x) g) 0
  = zsum (map (fun x => x ^ 2) g) /\
  Z.abs (zsum (map (fun x => x ^ 2) g)) <= len g * M ^ 2.
Proof.
  intros Hin. destruct (small_group g Hin) as [Hg Hlen].
  assert (Hmap : map (fun x => I64.mul x x) g = map (fun x => x ^ 2) g).
  { apply map_ext_in. intros x Hx. apply element_square_exact.
    apply in_concat. now exists g. }
  assert (Hsq : Forall (fun y => Z.abs y <= M ^ 2) (map (fun x => x ^ 2) g)).
  { apply Forall_map, Forall_forall. intros x Hx.
    apply element_square_exact, in_concat. now exists g. }
  pose proof (zsum_abs_bound _ _ Hsq) as Hb. rewrite len_map in Hb.
  pose proof (zsum_abs (map (fun x => x ^ 2) g)) as Ha.
  pose proof Hbound as Hbd. rewrite pow2_63 in Hbd.
  split; [|lia].
  rewrite Hmap, I64_sum_exact; [lia|]. rewrite pow2_63.
  change (Z.abs 0) with 0. nia.
Qed.

(** Adding, group after group, values bounded by a weight that adds up to
    less than 2^63. *)
Lemma total_exact (f : list Z -> Z) (W : Z) :
  0 <= W ->
  (forall g, In g groups -> Z.abs (f g) <= len g * W) ->
  len (concat groups) * W < 2 ^ 63 ->
  fold_left I64.add (map f groups) 0 = zsum (map f groups).
Proof.
  intros HW Hf Hb. rewrite I64_sum_exact; [lia|].
  change (Z.abs 0) with 0.
  enough (zsum (map Z.abs (map f groups)) <= len (concat groups) * W) by lia.
  clear Hb Hne Hsmall Hbound.
  induction groups as [|g gs IH]; [reflexivity|].
  cbn [map concat]. rewrite zsum_cons, len_app.
  specialize (Hf g (or_introl eq_refl)) as Hg.
  assert (IH' : zsum (map Z.abs (map f gs)) <= len (concat gs) * W).
  { apply IH. intros g' Hin. apply Hf. now right. }
  lia.
Qed.

Lemma integer_columns_table :
  groups <> [] ->
  perform_anova_core (Arrays_np pow) (map Int64Array groups)
  = Ok (integer_table groups).
Proof.
  intros Hg.
  pose proof bound_nonneg as Hn. pose proof Hbound as Hbd.
  rewrite pow2_63 in Hn, Hbd.
  destruct (nonempty_In groups Hg) as [g0 Hin0].
  destruct (small_group g0 Hin0) as [Hsm0 Hlen0].
  assert (HM : 0 <= M).
  { destruct g0 as [|x g']; [rewrite len_nil in Hlen0; lia|].
    inversion Hsm0; subst. lia. }
  assert (Hn1 : 1 <= len (concat groups)) by lia.
  (* the sums of the groups *)
  assert (Hsums : map (array_sum (Arrays := Arrays_np pow)) (map Int64Array groups)
                  = map Int64 (map zsum groups)).
  { rewrite !map_map. apply map_ext_in. intros g Hin.
    cbn [array_sum Arrays_np ndarray_sum].
    now rewrite (proj1 (group_sum_exact g Hin)). }
  assert (Hsqs : map (fun g => array_sum (Arrays := Arrays_np pow) (array_square (Arrays := Arrays_np pow) g))
                     (map Int64Array groups)
                 = map Int64 (map (fun g => zsum (map (fun x => x ^ 2) g))
                                  groups)).
  { rewrite !map_map. apply map_ext_in. intros g Hin.
    cbn [array_sum array_square Arrays_np ndarray_sum ndarray_square].
    now rewrite (proj1 (group_squares_exact g Hin)). }
  assert (Hsizes : map (size (Arrays := Arrays_np pow)) (map Int64Array groups) = map len groups).
  { rewrite map_map. reflexivity. }
  (* the totals *)
  assert (Htotal : py_sum_scalars (Arrays_np pow) (map Int64 (map zsum groups))
                   = Int64 (zsum (concat groups))).
  { unfold py_sum_scalars. cbn [scalar_add int_zero Arrays_np].
    rewrite fold_scalar_add_int, (total_exact zsum M HM), zsum_concat;
      [reflexivity | | rewrite pow2_63; lia].
    intros g Hin. apply group_sum_exact, Hin. }
  assert (Hsqtotal :
            py_sum_scalars (Arrays_np pow)
              (map Int64 (map (fun g => zsum (map (fun x => x ^ 2) g)) groups))
            = Int64 (zsum (map (fun x => x ^ 2) (concat groups)))).
  { unfold py_sum_scalars. cbn [scalar_add int_zero Arrays_np].
    rewrite fold_scalar_add_int,
      (total_exact (fun g => zsum (map (fun x => x ^ 2) g)) (M ^ 2)).
    - f_equal. rewrite concat_map, <- zsum_concat, map_map. reflexivity.
    - nia.
    - intros g Hin. apply group_squares_exact, Hin.
    - rewrite pow2_63. nia. }
  assert (Hsquare : I64.mul (zsum (concat groups)) (zsum (concat groups))
                    = zsum (concat groups) ^ 2).
  { unfold I64.mul. rewrite wrap_small; [lia|].
    pose proof (zsum_abs (concat groups)) as Ha.
    pose proof (zsum_abs_bound _ _ small_concat) as Hb.
    rewrite pow2_63. nia. }
  assert (Htr : map (fun '(s, sz) =>
                       div (to_result (Arrays := Arrays_np pow)
                                      (scalar_pow2 (Arrays := Arrays_np pow) s))
                           (of_int sz))
                    (combine (map Int64 (map zsum groups)) (map len groups))
                = map (fun g => F64.div (F64.of_int (zsum g ^ 2))
                                        (F64.of_int (len g))) groups).
  { rewrite map_map, combine_map_same, map_map.
    apply map_ext_in. intros g Hin.
    cbn [to_result scalar_pow2 Arrays_np scalar_pow2_np float_of_scalar].
    now rewrite (proj2 (proj2 (group_sum_exact g Hin))). }
  rewrite perform_anova_core_eq
    by (intros E; apply map_eq_nil in E; contradiction).
  cbv zeta.
  rewrite Hsums, Hsqs, Hsizes, Htotal, Hsqtotal, Htr.
  rewrite py_sum_int_sizes, len_map.
  cbn [to_result scalar_pow2 Arrays_np scalar_pow2_np float_of_scalar].
  rewrite Hsquare. reflexivity.
Qed.
End IntegerColumns.

(** ** Ingestion and the checks of [perform_anova] *)

(** An integer converts to a number, never to NaN. *)
Lemma shr_1_nonneg (mrs : shr_record) :
  0 <= shr_m mrs -> 0 <= shr_m (shr_1 mrs).
Proof.
  destruct mrs as [m r s]. cbn [shr_m]. intros Hm.
  destruct m as [|[p|p|]|[p|p|]]; cbn; lia.
Qed.

Lemma iter_shr_1_nonneg (p : positive) :
  forall mrs, 0 <= shr_m mrs -> 0 <= shr_m (iter_pos shr_1 p mrs).
Proof.
  induction p as [p IH|p IH|]; intros mrs Hm; cbn [iter_pos].
  - apply IH, IH, shr_1_nonneg, Hm.
  - apply IH, IH, Hm.
  - now apply shr_1_nonneg.
Qed.

Lemma shr_fexp_nonneg (m e : Z) (l : location) :
  0 <= m -> 0 <= shr_m (fst (shr_fexp F64.prec F64.emax m e l)).
Proof.
  intros Hm. unfold shr_fexp, shr.
  assert (H0 : 0 <= shr_m (shr_record_of_loc m l))
    by (destruct l as [|[| |]]; exact Hm).
  destruct (fexp _ _ _ - e); cbn [fst]; try exact H0.
  now apply iter_shr_1_nonneg.
Qed.

Lemma round_nearest_even_nonneg (m : Z) (l : location) :
  0 <= m -> 0 <= round_nearest_even m l.
Proof.
  intros Hm. destruct l as [|[| |]]; cbn [round_nearest_even]; try lia.
  destruct (Z.even m); lia.
Qed.

Lemma binary_round_aux_not_nan (s : bool) (m e : Z) (l : location) :
  0 <= m -> F64.isnan (binary_round_aux F64.prec F64.emax s m e l) = false.
Proof.
  intros Hm. unfold binary_round_aux.
  pose proof (shr_fexp_nonneg m e l Hm) as H1.
  destruct (shr_fexp F64.prec F64.emax m e l) as [mrs' e'].
  cbn [fst] in H1.
  pose proof (shr_fexp_nonneg _ e' loc_Exact
                (round_nearest_even_nonneg _ (loc_of_shr_record mrs') H1))
    as H2.
  destruct (shr_fexp F64.prec F64.emax _ e' loc_Exact) as [mrs'' e''].
  cbn [fst] in H2.
  destruct (shr_m mrs'') as [|p|p]; [reflexivity| |lia].
  destruct (e'' <=? _); reflexivity.
Qed.

Lemma of_int_not_nan (z : Z) : F64.isnan (F64.of_int z) = false.
Proof.
  unfold F64.of_int, binary_normalize.
  destruct z as [|p|p]; [reflexivity| |];
    unfold binary_round;
    destruct (shl_align _ _ _) as [mz ez];
    now apply binary_round_aux_not_nan.
Qed.

Lemma array_len_nonneg (g : ndarray) : 0 <= array_len g.
Proof. destruct g; apply len_nonneg. Qed.

Lemma len_as_float (g : ndarray) : len (as_float g) = array_len g.
Proof. destruct g; cbn [as_float array_len]; [apply len_map | reflexivity]. Qed.

Lemma len_cons_eqb {A} (x : A) (l : list A) : (len (x :: l) =? 0) = false.
Proof.
  apply Z.eqb_neq. rewrite len_cons. pose proof (len_nonneg l). lia.
Qed.

Section PerformAnovaFacts.
Variable py_float : string -> option F64.t.
Variable parse_number : string -> option number.
Variable f_oneway : list (list F64.t) -> F64.t * F64.t.
Variable pow : F64.t -> F64.t -> F64.t.

Lemma all_int64_some (c : list string) (a : list Z) :
  all_int64 parse_number c = Some a ->
  len a = len c /\
  Forall (fun s => exists z, parse_number s = Some (NInt z)) c.
Proof.
  revert a; induction c as [|s c IH]; intros a E; cbn [all_int64] in E.
  - injection E as <-. split; [reflexivity | constructor].
  - destruct (parse_number s) as [[z|x]|] eqn:Es;
      destruct (all_int64 parse_number c) as [a'|]; try discriminate.
    destruct (I64.in_range z); [|discriminate]. injection E as <-.
    destruct (IH a' eq_refl) as [Hl Hf]. split.
    + rewrite !len_cons. lia.
    + constructor; [now exists z | exact Hf].
Qed.

Lemma all_int64_none (c1 c2 : list string) (s : string) :
  not_numeric parse_number s ->
  all_int64 parse_number (c1 ++ s :: c2) = None.
Proof.
  intros Hs. induction c1 as [|s1 c1 IH]; cbn [app all_int64].
  - unfold not_numeric in Hs.
    destruct (parse_number s) as [[z|x]|]; [contradiction| |];
      destruct (all_int64 parse_number c2); reflexivity.
  - rewrite IH. destruct (parse_number s1) as [[z|x]|]; reflexivity.
Qed.

Lemma float_retains (c : list string) :
  negb (empty (dropna (Float64Array (map (float_cell parse_number) c))))
  = retains_numeric parse_number c.
Proof.
  unfold empty, dropna, array_len.
  induction c as [|s c IH]; [reflexivity|].
  cbn [map filter retains_numeric existsb]. unfold float_cell at 1.
  destruct (parse_number s) as [[z|x]|].
  - rewrite of_int_not_nan. cbn [negb orb]. now rewrite len_cons_eqb.
  - destruct (F64.isnan x); cbn [negb orb]; [exact IH|].
    now rewrite len_cons_eqb.
  - cbn [F64.isnan F64.nan negb orb]. exact IH.
Qed.

Lemma dropna_retains (c : list string) :
  negb (empty (dropna (to_numeric parse_number c)))
  = retains_numeric parse_number c.
Proof.
  unfold to_numeric. destruct (all_int64 parse_number c) as [a|] eqn:E.
  - destruct (all_int64_some c a E) as [Hl Hf].
    unfold empty, dropna, array_len. rewrite Hl.
    destruct c as [|s c']; [reflexivity|].
    inversion Hf as [|? ? [z Hz] _]; subst.
    cbn [retains_numeric existsb]. rewrite Hz. cbn [orb].
    now rewrite len_cons_eqb.
  - apply float_retains.
Qed.

Lemma valid_cols_numeric_columns (df : DataFrame) :
  valid_cols (numeric_only parse_number df)
  = map (fun '(l, c) => (l, to_numeric parse_number c))
        (numeric_columns parse_number df).
Proof.
  unfold valid_cols, numeric_only, numeric_columns.
  rewrite filter_map_swap. f_equal.
  apply filter_ext. intros [l c]; simpl. apply dropna_retains.
Qed.

Lemma len_valid_cols (df : DataFrame) :
  len (valid_cols (numeric_only parse_number df))
  = len (numeric_columns parse_number df).
Proof. now rewrite valid_cols_numeric_columns, len_map. Qed.

Lemma build_groups_valid_cols (num : list (label * ndarray)) :
  build_groups (valid_cols num)
  = (map fst (valid_cols num),
     map (fun c => dropna (snd c)) (valid_cols num)).
Proof.
  induction num as [|[l c] num IH]; [reflexivity|].
  unfold valid_cols in *; cbn [filter].
  destruct (empty (dropna c)) eqn:E; cbn [negb]; [exact IH|].
  cbn [build_groups map fst snd]. rewrite IH.
  unfold empty in E. apply Z.eqb_neq in E. pose proof (array_len_nonneg (dropna c)).
  destruct (0 <? array_len (dropna c)) eqn:L; [reflexivity|].
  apply Z.ltb_ge in L. lia.
Qed.

Lemma arrays_of_nonempty (df : DataFrame) :
  Forall (fun g => 1 <= array_len g) (arrays_of parse_number df).
Proof.
  unfold arrays_of. rewrite build_groups_valid_cols; cbn [snd].
  apply Forall_map, Forall_forall. intros [l c] Hin.
  apply filter_In in Hin as [_ Hc]. cbn [snd].
  unfold empty in Hc. apply negb_true_iff, Z.eqb_neq in Hc.
  pose proof (array_len_nonneg (dropna c)). lia.
Qed.

Lemma groups_of_nonempty (df : DataFrame) :
  Forall (fun g => g <> []) (groups_of parse_number df).
Proof.
  unfold groups_of. apply Forall_map.
  eapply Forall_impl; [|apply arrays_of_nonempty].
  intros g Hg E. cbv beta in Hg.
  rewrite <- len_as_float, E, len_nil in Hg. lia.
Qed.

Lemma len_arrays_of (df : DataFrame) :
  len (arrays_of parse_number df) = len (numeric_columns parse_number df).
Proof.
  unfold arrays_of. rewrite build_groups_valid_cols; cbn [snd].
  now rewrite len_map, len_valid_cols.
Qed.

Lemma len_groups_of (df : DataFrame) :
  len (groups_of parse_number df) = len (numeric_columns parse_number df).
Proof. unfold groups_of. now rewrite len_map, len_arrays_of. Qed.

Lemma perform_anova_core_ok {A S N : Type} {HN : Arith N}
    (np : Arrays A S N) (groups : list A) :
  groups <> [] -> exists t, perform_anova_core np groups = Ok t.
Proof.
  intros Hne. destruct groups as [|g groups]; [congruence|].
  unfold perform_anova_core. eexists. reflexivity.
Qed.

(** The shape of every successful run. *)
Lemma perform_anova_ok (df : DataFrame) (alpha_entry : string) :
  2 <= len (numeric_columns parse_number df) ->
  exists infos t,
    perform_anova_core (Arrays_np pow) (arrays_of parse_number df) = Ok t /\
    perform_anova py_float parse_number f_oneway pow df alpha_entry
    = Ok (infos,
          {| table := t;
             p_value := snd (f_oneway (groups_of parse_number df));
             alpha := read_alpha py_float alpha_entry;
             reject_H0 :=
               if F64.ltb (snd (f_oneway (groups_of parse_number df)))
                          (read_alpha py_float alpha_entry)
               then "Yes" else "No" |}).
Proof.
  intros Hcols.
  assert (Hlen : 2 <= len (arrays_of parse_number df))
    by now rewrite len_arrays_of.
  destruct (perform_anova_core_ok (Arrays_np pow) (arrays_of parse_number df))
    as [t Ht].
  { intros E. rewrite E, len_nil in Hlen. lia. }
  unfold perform_anova. rewrite len_valid_cols.
  destruct (len (numeric_columns parse_number df) <? 2) eqn:L;
    [apply Z.ltb_lt in L; lia|].
  unfold groups_of, arrays_of in *.
  destruct (build_groups (valid_cols (numeric_only parse_number df)))
    as [names groups]; simpl in *.
  unfold anova_of_groups.
  destruct (len groups <? 2) eqn:L2; [apply Z.ltb_lt in L2; lia|].
  destruct (f_oneway (map as_float groups)) as [f_stat p]; simpl.
  rewrite Ht; simpl. eexists _, t. split; reflexivity.
Qed.

Lemma perform_anova_too_few (df : DataFrame) (alpha_entry : string) :
  len (numeric_columns parse_number df) < 2 ->
  perform_anova py_float parse_number f_oneway pow df alpha_entry
  = Raise (ValueError msg_columns).
Proof.
  intros Hcols. unfold perform_anova. rewrite len_valid_cols.
  destruct (len (numeric_columns parse_number df) <? 2) eqn:L;
    [reflexivity | apply Z.ltb_ge in L; lia].
Qed.
End PerformAnovaFacts.

(** C6.  When fewer than two columns retain a numeric value after the
    cell-by-cell coercion, [perform_anova] raises the validation error
    "At least two columns must contain numeric data." and, past that check,
    a list of fewer than two groups raises "At least two groups are
    required for ANOVA."; either way no result table is produced. *)
Theorem perform_anova_validation
    (py_float : string -> option F64.t)
    (parse_number : string -> option number)
    (f_oneway : list (list F64.t) -> F64.t * F64.t)
    (pow : F64.t -> F64.t -> F64.t)
    (df : DataFrame) (alpha_entry : string) :
  (len (numeric_columns parse_number df) < 2 ->
   perform_anova py_float parse_number f_oneway pow df alpha_entry
   = Raise (ValueError "At least two columns must contain numeric data."))
  /\
  (forall (alpha : F64.t) (names : list label) (groups : list ndarray),
     len groups < 2 ->
     anova_of_groups f_oneway pow alpha names groups
     = Raise (ValueError "At least two groups are required for ANOVA.")).
Proof.
  split.
  - apply perform_anova_too_few.
  - intros alpha names groups Hlen. unfold anova_of_groups.
    destruct (len groups <? 2) eqn:L;
      [reflexivity | apply Z.ltb_ge in L; lia].
Qed.

Lemma perform_anova_validation_witness :
  len (numeric_columns read_number one_numeric_frame) < 2 /\
  perform_anova read_decimal read_number f_oneway_degenerate pow_cr
                one_numeric_frame "0.05"
  = Raise (ValueError "At least two columns must contain numeric data.") /\
  anova_of_groups f_oneway_degenerate pow_cr default_alpha [LStr "A"]
                  [Float64Array [F64.of_int 1; F64.of_int 2]]
  = Raise (ValueError "At least two groups are required for ANOVA.").
Proof.
  pose proof (perform_anova_validation read_decimal read_number
                f_oneway_degenerate pow_cr one_numeric_frame "0.05") as [H1 H2].
  split; [reflexivity|]. split.
  - apply H1. reflexivity.
  - apply H2. reflexivity.
Defined.

(** The second check is defensive: every column that passed the first one
    yields a group, so a run never fails on it. *)
Lemma perform_anova_groups_check_unreachable
    (py_float : string -> option F64.t)
    (parse_number : string -> option number)
    (f_oneway : list (list F64.t) -> F64.t * F64.t)
    (pow : F64.t -> F64.t -> F64.t)
    (df : DataFrame) (alpha_entry : string) :
  perform_anova py_float parse_number f_oneway pow df alpha_entry
  <> Raise (ValueError msg_groups).
Proof.
  destruct (Z.lt_ge_cases (len (numeric_columns parse_number df)) 2) as [L|L].
  - rewrite perform_anova_too_few by exact L. discriminate.
  - destruct (perform_anova_ok py_float parse_number f_oneway pow df alpha_entry)
      as (infos & t & _ & E); [lia|].
    rewrite E. discriminate.
Qed.

(** C4.  In every run that produces a result, the decision is "Yes"
    (reject H0) exactly when [p_value < alpha] holds strictly; [alpha] is
    the number that [float] reads in the stripped entry when it reads one
    and the literal 0.05 otherwise, and the entry never makes the run
    fail. *)
Theorem perform_anova_decision
    (py_float : string -> option F64.t)
    (parse_number : string -> option number)
    (f_oneway : list (list F64.t) -> F64.t * F64.t)
    (pow : F64.t -> F64.t -> F64.t)
    (df : DataFrame) (alpha_entry : string)
    (r : list group_info * anova_result) :
  perform_anova py_float parse_number f_oneway pow df alpha_entry = Ok r ->
  (forall a, py_float (strip alpha_entry) = Some a -> alpha (snd r) = a) /\
  (py_float (strip alpha_entry) = None ->
   alpha (snd r) = S754_finite false 7205759403792794 (-57)) /\
  p_value (snd r) = snd (f_oneway (groups_of parse_number df)) /\
  (reject_H0 (snd r) = "Yes"%string <->
   F64.ltb (p_value (snd r)) (alpha (snd r)) = true) /\
  (reject_H0 (snd r) = "No"%string <->
   F64.ltb (p_value (snd r)) (alpha (snd r)) = false) /\
  (forall other_entry, exists r',
     perform_anova py_float parse_number f_oneway pow df other_entry = Ok r').
Proof.
  intros Hrun.
  destruct (Z.lt_ge_cases (len (numeric_columns parse_number df)) 2) as [L|L].
  { rewrite perform_anova_too_few in Hrun by exact L. discriminate. }
  destruct (perform_anova_ok py_float parse_number f_oneway pow df alpha_entry)
    as (infos & t & _ & E); [lia|].
  rewrite E in Hrun. injection Hrun as <-. cbn [snd alpha p_value reject_H0].
  unfold read_alpha.
  repeat split.
  - intros a Ha. now rewrite Ha.
  - intros Ha. now rewrite Ha.
  - destruct (F64.ltb _ _); [reflexivity | discriminate].
  - intros Hlt. now rewrite Hlt.
  - destruct (F64.ltb _ _); [discriminate | reflexivity].
  - intros Hlt. now rewrite Hlt.
  - intros other_entry.
    destruct (perform_anova_ok py_float parse_number f_oneway pow df other_entry)
      as (infos' & t' & _ & E'); [lia|].
    eexists. exact E'.
Qed.

Lemma perform_anova_decision_witness :
  exists r,
    perform_anova read_decimal read_number f_oneway_abc pow_cr abc_frame "abc"
    = Ok r /\
    alpha (snd r) = S754_finite false 7205759403792794 (-57) /\
    reject_H0 (snd r) = "Yes"%string /\
    F_calculated (table (snd r)) = F64.of_int 48.
Proof.
  eexists. split; [vm_compute; reflexivity|].
  match goal with
  | |- alpha (snd ?r) = _ /\ _ =>
      pose proof (perform_anova_decision read_decimal read_number
                    f_oneway_abc pow_cr abc_frame "abc" r eq_refl)
        as (_ & Hdefault & _ & Hyes & _ & _)
  end.
  split; [apply Hdefault; reflexivity|].
  split; [apply Hyes; reflexivity | reflexivity].
Defined.

Lemma perform_anova_core_fields {A S N : Type} {HN : Arith N}
    (np : Arrays A S N) (groups : list A) (t : anova_table N) :
  perform_anova_core np groups = Ok t ->
  df_treat t = len groups - 1 /\
  df_error t = py_sum_int (map size groups) - len groups /\
  df_total t = py_sum_int (map size groups) - 1 /\
  MSTR t = div (SSTR t) (of_int (df_treat t)) /\
  MSE t = div (SSE t) (of_int (df_error t)).
Proof.
  destruct groups as [|g groups]; [discriminate|].
  unfold perform_anova_core; cbv zeta.
  intros E. injection E as <-. cbn [df_treat df_error df_total MSTR MSE SSTR SSE].
  repeat split; reflexivity.
Qed.

(** ** Zero error variance *)

Lemma perform_anova_core_F {A S N : Type} {HN : Arith N}
    (np : Arrays A S N) (groups : list A) (t : anova_table N) :
  perform_anova_core np groups = Ok t ->
  F_calculated t = div (MSTR t) (MSE t) /\ SSE t = sub (SST t) (SSTR t).
Proof.
  destruct groups as [|g groups]; [discriminate|].
  unfold perform_anova_core. intros E. injection E as <-.
  split; reflexivity.
Qed.

Lemma div_by_zero (x y : F64.t) :
  F64.is_zero y = true ->
  F64.isnan (F64.div x y) || F64.is_inf (F64.div x y) = true.
Proof.
  destruct y; try discriminate. intros _.
  destruct x; reflexivity.
Qed.

Lemma div_by_zero_nan (x y : F64.t) :
  F64.is_zero y = true ->
  F64.isnan (F64.div x y) = F64.is_zero x || F64.isnan x.
Proof.
  destruct y; try discriminate. intros _.
  destruct x; reflexivity.
Qed.

(** C2, as the program has it.  With at least two columns that retain a
    numeric value the run always produces a result; the F statistic is the
    binary64 quotient MSTR / MSE, so that a zero MSE gives NaN when MSTR is
    zero or NaN and an infinity otherwise, never an error. *)
Theorem perform_anova_zero_error_variance
    (py_float : string -> option F64.t)
    (parse_number : string -> option number)
    (f_oneway : list (list F64.t) -> F64.t * F64.t)
    (pow : F64.t -> F64.t -> F64.t)
    (df : DataFrame) (alpha_entry : string) :
  2 <= len (numeric_columns parse_number df) ->
  exists r,
    perform_anova py_float parse_number f_oneway pow df alpha_entry = Ok r /\
    F_calculated (table (snd r))
    = F64.div (MSTR (table (snd r))) (MSE (table (snd r))) /\
    (F64.is_zero (MSE (table (snd r))) = true ->
     F64.isnan (F_calculated (table (snd r)))
     || F64.is_inf (F_calculated (table (snd r))) = true) /\
    (F64.is_zero (MSE (table (snd r))) = true ->
     F64.isnan (F_calculated (table (snd r)))
     = F64.is_zero (MSTR (table (snd r)))
       || F64.isnan (MSTR (table (snd r)))).
Proof.
  intros Hcols.
  destruct (perform_anova_ok py_float parse_number f_oneway pow df alpha_entry
              Hcols) as (infos & t & Ht & E).
  eexists. split; [exact E|]. cbn [snd table].
  destruct (perform_anova_core_F _ _ t Ht) as [HF _].
  change (@div F64.t Arith_F64) with F64.div in HF.
  rewrite HF. split; [reflexivity|]. split.
  - apply div_by_zero.
  - apply div_by_zero_nan.
Qed.

Lemma perform_anova_zero_error_variance_witness :
  2 <= len (numeric_columns read_number constant_frame) /\
  exists r,
    perform_anova read_decimal read_number f_oneway_degenerate pow_cr
                  constant_frame "0.05" = Ok r /\
    F64.isnan (F_calculated (table (snd r))) = true.
Proof.
  split; [discriminate|].
  destruct (perform_anova_zero_error_variance read_decimal read_number
              f_oneway_degenerate pow_cr constant_frame "0.05")
    as (r & E & _ & _ & Hnan); [discriminate|].
  exists r. split; [exact E|].
  vm_compute in E. injection E as <-. reflexivity.
Defined.

(** C2, as the specification has it, fails: four observations equal to 1 in
    two groups give MSE = 0, and the run returns a table whose F is NaN
    where the claim wants an error. *)
Lemma perform_anova_constant_counterexample :
  all_observations_equal (groups_of read_number constant_frame)
                         (F64.of_int 1) /\
  exists r,
    perform_anova read_decimal read_number f_oneway_degenerate pow_cr
                  constant_frame "0.05" = Ok r /\
    MSE (table (snd r)) = S754_zero false /\
    F_calculated (table (snd r)) = F64.nan.
Proof.
  split.
  - vm_compute. repeat constructor.
  - eexists. split; [vm_compute; reflexivity|]. split; reflexivity.
Qed.

(** ** The decomposition of the sum of squares *)

Lemma Qc_of_int_add (a b : Z) :
  of_int (N := Qc) (a + b) = Qcplus (of_int a) (of_int b).
Proof.
  apply Qc_is_canon. cbn [of_int Arith_Qc]. unfold Qcplus, Q2Qc; cbn [this].
  rewrite !Qred_correct, inject_Z_plus. reflexivity.
Qed.

Lemma Qc_of_int_one : of_int (N := Qc) 1 = 1%Qc.
Proof. apply Qc_is_canon. reflexivity. Qed.

Lemma Qc_of_int_nonzero (z : Z) : z <> 0 -> of_int (N := Qc) z <> Q2Qc 0.
Proof.
  intros Hz E. apply (f_equal this) in E.
  cbn [of_int Arith_Qc] in E. unfold Q2Qc in E; cbn [this] in E.
  apply Qred_eq_iff in E. unfold Qeq in E; simpl in E. lia.
Qed.

(** The squared deviations from any centre [mu], expanded. *)
Lemma Qc_sum_sq_dev (l : list Qc) (mu : Qc) :
  sigma (map (fun x => sq (sub x mu)) l)
  = (sigma (map sq l) - (1 + 1) * mu * sigma l
     + of_int (len l) * mu * mu)%Qc.
Proof.
  induction l as [|x l IH].
  - unfold sigma, len.
    cbn [map fold_right List.length Z.of_nat of_int zero Arith_Qc].
    change (inject_Z 0) with 0%Q. ring.
  - cbn [map]. rewrite !Qc_sigma_cons, IH, len_cons.
    rewrite Qc_of_int_add, Qc_of_int_one.
    unfold sq; cbn [add sub mul div Arith_Qc]. ring.
Qed.

Lemma Qc_direct_SST (groups : list (list Qc)) :
  pooled groups <> [] ->
  direct_SST groups = spec_SST groups.
Proof.
  intros Hne. unfold direct_SST, spec_SST, spec_C, grand_mean, spec_n.
  rewrite Qc_sum_sq_dev.
  assert (Hn : of_int (N := Qc) (len (pooled groups)) <> Q2Qc 0).
  { apply Qc_of_int_nonzero. destruct (pooled groups); [congruence|].
    rewrite len_cons. pose proof (len_nonneg l). lia. }
  unfold sq; cbn [add sub mul div Arith_Qc].
  field. exact Hn.
Qed.

Lemma pooled_nonempty {A} (groups : list (list A)) :
  2 <= len groups -> Forall (fun g => g <> []) groups -> concat groups <> [].
Proof.
  intros Hlen Hne. destruct groups as [|g groups].
  - rewrite len_nil in Hlen. lia.
  - inversion Hne as [|? ? Hg _]; subst. simpl.
    destruct g; [congruence | discriminate].
Qed.

(** C3, as the program has it.  On binary64 the error sum of squares is the
    rounded difference SST - SSTR, and nothing more is promised.  The same
    formulas without rounding give, for at least two non-empty groups,
    SST = SSTR + SSE exactly, and the total taken directly from the pooled
    values (the squared deviations from the grand mean) is that same
    number. *)
Theorem sum_of_squares_decomposition :
  (forall (pow : F64.t -> F64.t -> F64.t) (groups : list ndarray)
          (t : anova_table F64.t),
     perform_anova_core (Arrays_np pow) groups = Ok t ->
     SSE t = F64.sub (SST t) (SSTR t)) /\
  (forall (groups : list (list Qc)) (t : anova_table Qc),
     2 <= len groups ->
     Forall (fun g => g <> []) groups ->
     perform_anova_core Arrays_Qc groups = Ok t ->
     SST t = (SSTR t + SSE t)%Qc /\
     direct_SST groups = (SSTR t + SSE t)%Qc).
Proof.
  split.
  - intros pow groups t Ht.
    now destruct (perform_anova_core_F _ groups t Ht).
  - intros groups t Hlen Hne Ht.
    destruct (perform_anova_core_F _ groups t Ht) as [_ HSSE].
    cbn [sub Arith_Qc] in HSSE.
    assert (Hsum : SST t = (SSTR t + SSE t)%Qc) by (rewrite HSSE; ring).
    split; [exact Hsum|].
    rewrite <- Hsum.
    pose proof (pooled_nonempty groups Hlen Hne) as Hpool.
    rewrite Qc_direct_SST by exact Hpool.
    assert (Hg : groups <> []).
    { intros E. rewrite E, len_nil in Hlen. lia. }
    rewrite (perform_anova_core_pooled groups Hg) in Ht.
    injection Ht as <-. reflexivity.
Qed.

Lemma sum_of_squares_decomposition_witness :
  (exists t,
     perform_anova_core (Arrays_np pow_cr) (map Float64Array rounding_groups)
     = Ok t /\
     SSE t = F64.sub (SST t) (SSTR t)) /\
  (2 <= len (abc_groups (N := Qc)) /\
   Forall (fun g => g <> []) (abc_groups (N := Qc)) /\
   exists t,
     perform_anova_core Arrays_Qc abc_groups = Ok t /\
     SST t = (SSTR t + SSE t)%Qc /\
     direct_SST abc_groups = (SSTR t + SSE t)%Qc).
Proof.
  destruct sum_of_squares_decomposition as [Hfloat Hexact].
  assert (Hlen : 2 <= len (abc_groups (N := Qc))) by discriminate.
  assert (Hne : Forall (fun g => g <> []) (abc_groups (N := Qc)))
    by (repeat constructor; discriminate).
  split.
  - eexists. split; [vm_compute; reflexivity|].
    apply (Hfloat pow_cr (map Float64Array rounding_groups)).
    vm_compute; reflexivity.
  - split; [exact Hlen|]. split; [exact Hne|].
    destruct (perform_anova_core_ok Arrays_Qc (abc_groups (N := Qc)))
      as [t Ht]; [discriminate|].
    exists t. split; [exact Ht|].
    exact (Hexact abc_groups t Hlen Hne Ht).
Defined.

(** C3, as the specification has it, fails on binary64.  On the groups
    [0, 2] and [0, 0, 5] the sum SSTR + SSE is one unit in the last place
    below SST; on four observations near 10^8 it is 8 where the total taken
    directly from the pooled values is 5. *)
Lemma sum_of_squares_counterexample :
  (exists t,
     perform_anova_core (Arrays_np pow_cr) (map Float64Array rounding_groups)
     = Ok t /\
     F64.add (SSTR t) (SSE t) <> SST t /\
     F64.ltb (F64.add (SSTR t) (SSE t)) (SST t) = true) /\
  (exists t,
     perform_anova_core (Arrays_np pow_cr) (map Float64Array offset_groups)
     = Ok t /\
     F64.add (SSTR t) (SSE t) = F64.of_int 8 /\
     direct_SST offset_groups = F64.of_int 5).
Proof.
  split.
  - eexists. split; [vm_compute; reflexivity|].
    split; [vm_compute; discriminate | vm_compute; reflexivity].
  - eexists. split; [vm_compute; reflexivity|].
    split; vm_compute; reflexivity.
Qed.

(** ** The core against the algorithm of the specification *)




(** The groups A, B, C as columns of floats: every intermediate value is
    an integer, and the table is the one of the textbook computation. *)
Example perform_anova_core_abc_binary64 :
  perform_anova_core (Arrays_np pow_cr) (map Float64Array abc_groups)
  = Ok {| C := F64.of_int 324;
          SST := F64.of_int 102;
          SSTR := F64.of_int 96;
          SSE := F64.of_int 6;
          df_treat := 2;
          df_error := 6;
          df_total := 8;
          MSTR := F64.of_int 48;
          MSE := F64.of_int 1;
          F_calculated := F64.of_int 48 |}.
Proof. vm_compute. reflexivity. Qed.

(** ** Column names of a file without header *)

Lemma map_fst_combine {A B} (a : list A) (b : list B) :
  List.length a = List.length b -> map fst (combine a b) = a.
Proof.
  revert b; induction a as [|x a IH]; intros [|y b] E; simpl in *;
    try reflexivity; try discriminate.
  f_equal. apply IH. now injection E.
Qed.

Lemma map_snd_combine {A B} (a : list A) (b : list B) :
  List.length a = List.length b -> map snd (combine a b) = b.
Proof.
  revert b; induction a as [|x a IH]; intros [|y b] E; simpl in *;
    try reflexivity; try discriminate.
  f_equal. apply IH. now injection E.
Qed.

Lemma length_py_range (lo hi : Z) :
  List.length (py_range lo hi) = Z.to_nat (hi - lo).
Proof. unfold py_range. now rewrite length_map, length_seq. Qed.

Lemma length_group_names (count : Z) :
  List.length (group_names count) = Z.to_nat count.
Proof.
  unfold group_names. rewrite length_map, length_py_range. f_equal; lia.
Qed.

Lemma set_columns_ok (df : DataFrame) (names : list label) :
  List.length names = List.length (columns df) ->
  exists df', set_columns df names = Ok df' /\
              map fst (columns df') = names /\
              map snd (columns df') = map snd (columns df).
Proof.
  intros E. unfold set_columns. rewrite (proj2 (Nat.eqb_eq _ _) E).
  eexists. split; [reflexivity|]. cbn [columns].
  split; [apply map_fst_combine | apply map_snd_combine];
    now rewrite length_map.
Qed.

Lemma read_csv_no_header (first : list string) (rest : list (list string))
    (index_col : bool) :
  let rows := first :: rest in
  let cols := combine (map (fun j => LInt (Z.of_nat j))
                           (seq 0 (List.length first)))
                      (map (column_of rows) (seq 0 (List.length first))) in
  read_csv rows false index_col
  = if index_col then
      match cols with
      | [] => Raise (ValueError "Index 0 invalid")
      | (l, c) :: cols' =>
          Ok {| index_name := Some l; index := c; columns := cols' |}
      end
    else Ok {| index_name := None; index := []; columns := cols |}.
Proof. reflexivity. Qed.

(** C5.  Without a header row the columns are named Group0, Group1, ... by
    position.  Without an index column the names run over the columns of
    the file.  With an index column the first column is taken out (the
    frame [dropped]), put back in front by [reset_index], and the names run
    from Group0 over the reduced count plus one, that is up to
    Group(reduced count) inclusive; the renamed frame holds every column of
    the file. *)
Theorem load_csv_group_names (first : list string)
    (rest : list (list string)) :
  let rows := first :: rest in
  (exists df,
     load_csv rows "no" "no" = Ok df /\
     map fst (columns df)
     = map (fun i => LStr ("Group" ++ str_of_int i)) (py_range 0 (len first))
     /\ map snd (columns df)
        = map (column_of rows) (seq 0 (List.length first))) /\
  (first <> [] ->
   exists dropped df,
     read_csv rows false true = Ok dropped /\
     shape1 dropped = len first - 1 /\
     load_csv rows "no" "yes" = Ok df /\
     map fst (columns df)
     = map (fun i => LStr ("Group" ++ str_of_int i))
           (py_range 0 (shape1 dropped + 1)) /\
     map snd (columns df)
     = map (column_of rows) (seq 0 (List.length first))).
Proof.
  intros rows. split.
  - unfold load_csv. cbn [String.eqb Ascii.eqb Bool.eqb].
    unfold rows. rewrite read_csv_no_header. cbn [bind].
    set (df := {| index_name := None; index := []; columns := _ |}).
    assert (Hshape : shape1 df = len first).
    { unfold shape1, len, df; cbn [columns].
      now rewrite length_combine, !length_map, length_seq, Nat.min_id. }
    destruct (set_columns_ok df (group_names (shape1 df)))
      as (df' & E & Hnames & Hdata).
    { rewrite length_group_names, Hshape. unfold shape1, len in Hshape.
      unfold len. lia. }
    exists df'. split; [exact E|]. split.
    + rewrite Hnames, Hshape. reflexivity.
    + rewrite Hdata. unfold df; cbn [columns].
      apply map_snd_combine. now rewrite !length_map.
  - intros Hfirst. destruct first as [|c first']; [congruence|].
    unfold load_csv. cbn [String.eqb Ascii.eqb Bool.eqb].
    unfold rows. rewrite read_csv_no_header.
    cbn [List.length seq map combine bind].
    set (dropped := {| index_name := Some (LInt (Z.of_nat 0)); index := _;
                       columns := _ |}).
    assert (Hshape : shape1 dropped = len (c :: first') - 1).
    { unfold shape1, dropped; cbn [columns]. rewrite len_cons.
      unfold len. rewrite length_combine, !length_map, length_seq, Nat.min_id.
      lia. }
    destruct (set_columns_ok (reset_index dropped)
                (group_names (shape1 dropped + 1)))
      as (df' & E & Hnames & Hdata).
    { rewrite length_group_names.
      unfold reset_index, dropped; cbn [index_name index columns].
      cbn [List.length]. unfold shape1, dropped; cbn [columns].
      unfold len. lia. }
    exists dropped, df'. split; [reflexivity|]. split; [exact Hshape|].
    split; [exact E|]. split; [exact Hnames|].
    rewrite Hdata. unfold reset_index, dropped; cbn [index_name index columns].
    cbn [map snd]. f_equal.
    apply map_snd_combine. now rewrite !length_map.
Qed.

Lemma load_csv_group_names_witness :
  exists df,
    load_csv [["r1"; "1"; "2"]; ["r2"; "3"; "4"]]%string "no" "yes" = Ok df /\
    map fst (columns df)
    = [LStr "Group0"; LStr "Group1"; LStr "Group2"] /\
    map snd (columns df) = [["r1"; "r2"]; ["1"; "3"]; ["2"; "4"]]%string.
Proof.
  destruct (load_csv_group_names ["r1"; "1"; "2"]%string
              [["r2"; "3"; "4"]]%string)
    as [_ Hindex].
  destruct Hindex as (dropped & df & Hdrop & _ & E & Hnames & Hdata);
    [discriminate|].
  exists df. split; [exact E|].
  vm_compute in Hdrop. injection Hdrop as <-.
  split; [exact Hnames | exact Hdata].
Defined.

(** Three columns and four rows, no header and no index column: the groups
    Group0, Group1, Group2, four cells each. *)
Example load_csv_three_columns :
  load_csv [["1"; "2"; "3"]; ["4"; "5"; "6"];
            ["7"; "8"; "9"]; ["10"; "11"; "12"]]%string "no" "no"
  = Ok (frame_of [(LStr "Group0", ["1"; "4"; "7"; "10"]);
                  (LStr "Group1", ["2"; "5"; "8"; "11"]);
                  (LStr "Group2", ["3"; "6"; "9"; "12"])]%string).
Proof. reflexivity. Qed.

(** ** binary64 facts *)

Lemma bounded_inv (m : positive) (e : Z) :
  bounded F64.prec F64.emax m e = true ->
  Z.max (Zpos (digits2_pos m) + e - 53) (-1074) = e /\ e <= 971.
Proof.
  unfold bounded, canonical_mantissa, fexp, emin, F64.prec, F64.emax.
  intros Hb. apply andb_true_iff in Hb as [Hc He].
  apply Z.eqb_eq in Hc. apply Z.leb_le in He. simpl in He. 
  change (3 - 1024 - 53) with (-1074) in Hc. split; [exact Hc | exact He].
Qed.

Lemma fexp_unfold (z : Z) : fexp F64.prec F64.emax z = Z.max (z - 53) (-1074).
Proof. reflexivity. Qed.

Lemma binary_round_aux_exact (s : bool) (m : positive) (e : Z) :
  bounded F64.prec F64.emax m e = true ->
  binary_round_aux F64.prec F64.emax s (Zpos m) e loc_Exact
  = S754_finite s m e.
Proof.
  intros Hb. destruct (bounded_inv m e Hb) as [Hc He].
  unfold binary_round_aux, shr_fexp.
  cbn [Zdigits2 shr_record_of_loc]. rewrite fexp_unfold, Hc, Z.sub_diag.
  cbn [shr shr_m loc_of_shr_record round_nearest_even Zdigits2 shr_record_of_loc].
  rewrite fexp_unfold, Hc, Z.sub_diag.
  cbn [shr shr_m].
  replace (e <=? F64.emax - F64.prec) with true; [reflexivity|].
  symmetry. apply Z.leb_le. unfold F64.emax, F64.prec. lia.
Qed.

Lemma binary_round_aux_exact_twice (s : bool) (m : positive) (e : Z) :
  bounded F64.prec F64.emax m e = true ->
  binary_round_aux F64.prec F64.emax s (Zpos m~0) (e - 1) loc_Exact
  = S754_finite s m e.
Proof.
  intros Hb. destruct (bounded_inv m e Hb) as [Hc He].
  unfold binary_round_aux, shr_fexp.
  cbn [Zdigits2 digits2_pos shr_record_of_loc]. rewrite fexp_unfold.
  replace (Z.pos (Pos.succ (digits2_pos m)) + (e - 1) - 53)
    with (Z.pos (digits2_pos m) + e - 53) by lia.
  rewrite Hc. replace (e - (e - 1)) with 1 by lia.
  cbn [shr iter_pos shr_1 orb].
  replace (e - 1 + 1) with e by lia.
  cbn [shr shr_m loc_of_shr_record round_nearest_even Zdigits2 shr_record_of_loc].
  rewrite fexp_unfold, Hc, Z.sub_diag.
  cbn [shr shr_m].
  replace (e <=? F64.emax - F64.prec) with true; [reflexivity|].
  symmetry. apply Z.leb_le. unfold F64.emax, F64.prec. lia.
Qed.

Lemma SFdiv_core_one (m : positive) (e : Z) :
  bounded F64.prec F64.emax m e = true ->
  SFdiv_core_binary F64.prec F64.emax (Zpos m) e 4503599627370496 (-52)
  = (Zpos m, e, loc_Exact) \/
  SFdiv_core_binary F64.prec F64.emax (Zpos m) e 4503599627370496 (-52)
  = (Zpos m~0, e - 1, loc_Exact).
Proof.
  intros Hb. destruct (bounded_inv m e Hb) as [Hc He].
  unfold SFdiv_core_binary.
  change (Zdigits2 4503599627370496) with 53.
  cbn [Zdigits2]. rewrite fexp_unfold.
  set (D := Z.pos (digits2_pos m)) in *.
  assert (HD : 0 < D) by (unfold D; lia).
  set (E' := Z.min _ _).
  assert (HE : E' = e \/ E' = e - 1) by (unfold E'; lia).
  destruct HE as [HE|HE]; rewrite HE; clear E' HE.
  - left. replace (e - -52 - e) with 52 by lia.
    rewrite Z.shiftl_mul_pow2 by lia.
    pose proof (Z.div_eucl_eq (Z.pos m * 2 ^ 52) 4503599627370496) as Hq.
    pose proof (Z.mod_mul (Z.pos m) 4503599627370496) as Hr.
    pose proof (Z.div_mul (Z.pos m) 4503599627370496) as Hd.
    unfold Z.modulo, Z.div in Hr, Hd.
    change (2 ^ 52) with 4503599627370496.
    destruct (Z.div_eucl (Z.pos m * 4503599627370496) 4503599627370496) as [q r].
    rewrite Hr, Hd by lia. reflexivity.
  - right. replace (e - -52 - (e - 1)) with 53 by lia.
    rewrite Z.shiftl_mul_pow2 by lia.
    replace (Z.pos m * 2 ^ 53) with (Z.pos m~0 * 4503599627370496) by lia.
    pose proof (Z.mod_mul (Z.pos m~0) 4503599627370496) as Hr.
    pose proof (Z.div_mul (Z.pos m~0) 4503599627370496) as Hd.
    unfold Z.modulo, Z.div in Hr, Hd.
    destruct (Z.div_eucl (Z.pos m~0 * 4503599627370496) 4503599627370496) as [q r].
    rewrite Hr, Hd by lia. reflexivity.
Qed.

Lemma F64_one : F64.of_int 1 = S754_finite false 4503599627370496 (-52).
Proof. reflexivity. Qed.

Lemma div_one_exact (x : F64.t) :
  canonical x -> F64.div x (F64.of_int 1) = x.
Proof.
  intros Hx. rewrite F64_one. destruct x as [s|s| |s m e].
  - destruct s; reflexivity.
  - destruct s; reflexivity.
  - reflexivity.
  - unfold F64.div, SFdiv. unfold canonical in Hx; cbn [valid_binary] in Hx.
    replace (xorb s false) with s by (destruct s; reflexivity).
    destruct (SFdiv_core_one m e Hx) as [E|E]; rewrite E.
    + now apply binary_round_aux_exact.
    + now apply binary_round_aux_exact_twice.
Qed.

Lemma sub_self_finite (s : bool) (m : positive) (e : Z) :
  F64.sub (S754_finite s m e) (S754_finite s m e) = S754_zero false.
Proof.
  unfold F64.sub, SFsub. rewrite Z.sub_diag. reflexivity.
Qed.

Lemma np_mean_single (x : F64.t) :
  canonical x ->
  np_mean [x] = x \/ (x = S754_zero true /\ np_mean [x] = S754_zero false).
Proof.
  intros Hx. unfold np_mean, np_sum.
  change (len [x]) with 1. cbn [fold_left].
  destruct x as [[|]|s| |s m e].
  - right. split; reflexivity.
  - left. reflexivity.
  - left. destruct s; reflexivity.
  - left. reflexivity.
  - left. change (add zero (S754_finite s m e)) with (S754_finite s m e).
    now apply div_one_exact.
Qed.

Lemma np_std_single (x : F64.t) :
  canonical x -> np_std [x] 1 = F64.nan.
Proof.
  intros Hx. unfold np_std.
  change (len [x]) with 1. change (Z.max (1 - 1) 0) with 0.
  unfold np_sum at 2. cbn [fold_left].
  destruct x as [[|]|[|]| |s m e]; try reflexivity.
  change (add zero (S754_finite s m e)) with (S754_finite s m e).
  rewrite div_one_exact by exact Hx.
  cbn [map]. rewrite sub_self_finite. reflexivity.
Qed.

Lemma div_nan_r (x : F64.t) : F64.div x F64.nan = F64.nan.
Proof. destruct x; reflexivity. Qed.

(** No tolerance is exceeded by the deviation of a NaN. *)
Lemma gtb_nan_deviation (target tol : F64.t) :
  F64.gtb (F64.abs (F64.sub F64.nan target)) tol = false.
Proof. destruct tol; reflexivity. Qed.

Lemma np_round_nan (d : Z) : np_round F64.nan d = F64.nan.
Proof. unfold np_round. destruct (0 <=? d); reflexivity. Qed.

Lemma round_half_even_spec (m k : Z) :
  0 <= m -> 0 < k ->
  let r := F64.round_half_even m k in
  2 * Z.abs (m - r * 2 ^ k) <= 2 ^ k /\
  (2 * Z.abs (m - r * 2 ^ k) = 2 ^ k -> Z.even r = true).
Proof.
  intros Hm Hk. unfold F64.round_half_even.
  assert (HP : 0 < 2 ^ k) by (apply Z.pow_pos_nonneg; lia).
  pose proof (Z.div_mod m (2 ^ k) ltac:(lia)) as Hdm.
  pose proof (Z.mod_pos_bound m (2 ^ k) HP) as Hr.
  set (P := 2 ^ k) in *. set (q := m / P) in *. set (r := m mod P) in *.
  destruct (Z.compare_spec (2 * r) P) as [E|L|G]; cbv zeta.
  - destruct (Z.even q) eqn:Ev.
    + split; [lia | intros _; exact Ev].
    + split; [lia|]. intros _.
      rewrite Z.add_1_r, Z.even_succ, <- Z.negb_even, Ev. reflexivity.
  - split; lia.
  - split; lia.
Qed.

Lemma rint_finite (s : bool) (m : positive) (e : Z) :
  e < 0 ->
  F64.rint (S754_finite s m e)
  = binary_normalize F64.prec F64.emax
      (cond_Zopp s (F64.round_half_even (Zpos m) (- e))) 0 s.
Proof.
  intros He. unfold F64.rint.
  destruct (0 <=? e) eqn:L; [apply Z.leb_le in L; lia | reflexivity].
Qed.

Lemma np_round_decimals (x : F64.t) (d : Z) :
  0 <= d ->
  np_round x d = F64.div (F64.rint (F64.mul x (pow10 d))) (pow10 d).
Proof.
  intros Hd. unfold np_round.
  destruct (0 <=? d) eqn:L; [reflexivity | apply Z.leb_gt in L; lia].
Qed.


(** ** The generator *)

Lemma str_of_int_inj (i j : Z) : str_of_int i = str_of_int j -> i = j.
Proof.
  unfold str_of_int. intros E.
  apply (f_equal NilEmpty.int_of_string) in E.
  rewrite !NilEmpty.isi in E. injection E as E.
  now apply DecimalZ.to_int_inj.
Qed.

Lemma treatment_name_inj (i j : Z) :
  ANOVADataGenerator.treatment_name i = ANOVADataGenerator.treatment_name j ->
  i = j.
Proof.
  unfold ANOVADataGenerator.treatment_name. cbn [String.append].
  intros E. injection E as E. now apply str_of_int_inj.
Qed.

Lemma NoDup_py_range (lo hi : Z) : NoDup (py_range lo hi).
Proof.
  unfold py_range. apply Injective_map_NoDup; [|apply seq_NoDup].
  intros a b E. lia.
Qed.

Lemma NoDup_treatment_names (lo hi : Z) :
  NoDup (map ANOVADataGenerator.treatment_name (py_range lo hi)).
Proof.
  apply Injective_map_NoDup; [|apply NoDup_py_range].
  intros a b. apply treatment_name_inj.
Qed.

Lemma dict_set_fresh {V} (data : list (string * V)) (key : string) (v : V) :
  ~ In key (map fst data) -> dict_set data key v = data ++ [(key, v)].
Proof.
  induction data as [|[k w] data IH]; intros Hfresh; [reflexivity|].
  cbn [dict_set]. cbn [map fst In] in Hfresh.
  destruct (String.eqb k key) eqn:E.
  - apply String.eqb_eq in E. tauto.
  - cbn [app]. f_equal. apply IH. tauto.
Qed.

Section GeneratorFacts.
Variable RNG : Type.
Variable np_random_normal :
  RNG -> F64.t -> F64.t -> Z -> result (list F64.t) * RNG.

Import ANOVADataGenerator.

Lemma generate_observations_raise (self : t) (target_mean : Z)
    (target_std : F64.t) (rng rng' : RNG) (e : exception) :
  generate_observations RNG np_random_normal self target_mean target_std rng
  = (Raise e, rng') ->
  np_random_normal rng (F64.of_int target_mean) target_std
                   (replications self) = (Raise e, rng').
Proof.
  unfold generate_observations.
  destruct (np_random_normal rng _ _ _) as [[xs|e0] r]; intros E.
  - discriminate.
  - exact E.
Qed.

Lemma generate_loop_columns (self : t) (treatments : list Z) :
  forall (data : list (string * list F64.t)) (rng rng' : RNG)
         (table : list (string * list F64.t)),
    NoDup (map treatment_name treatments) ->
    (forall i, In i treatments -> ~ In (treatment_name i) (map fst data)) ->
    generate_loop RNG np_random_normal self treatments data rng
    = (Ok table, rng') ->
    exists cols,
      table = data ++ cols /\
      Forall2 (column_of_treatment RNG np_random_normal self)
              treatments cols.
Proof.
  induction treatments as [|i treatments IH];
    intros data rng rng' table Hnodup Hfresh Hrun.
  - cbn [generate_loop] in Hrun.
    injection Hrun as <- _. exists []. split; [now rewrite app_nil_r|].
    constructor.
  - cbn [generate_loop] in Hrun.
    destruct (generate_observations RNG np_random_normal self _ _ rng)
      as [[obs|e] rng1] eqn:Eobs; [|discriminate].
    rewrite dict_set_fresh in Hrun by (apply Hfresh; now left).
    cbn [map] in Hnodup. apply NoDup_cons_iff in Hnodup as [Hi Hnodup].
    destruct (IH (data ++ [(treatment_name i, obs)]) rng1 rng' table Hnodup)
      as (cols & -> & Hcols); [|exact Hrun|].
    { intros j Hj Hin. rewrite map_app in Hin. cbn [map fst] in Hin.
      apply in_app_or in Hin as [Hin|[Hin|[]]].
      - apply (Hfresh j); [now right | exact Hin].
      - apply Hi. rewrite Hin. now apply in_map. }
    exists ((treatment_name i, obs) :: cols). split.
    + now rewrite <- app_assoc.
    + constructor; [|exact Hcols]. split; [reflexivity|].
      exists rng, rng1. exact Eobs.
Qed.

Lemma generate_loop_raise (self : t) (treatments : list Z) :
  forall (data : list (string * list F64.t)) (rng rng' : RNG)
         (e : exception),
    generate_loop RNG np_random_normal self treatments data rng
    = (Raise e, rng') ->
    exists r r' loc scale,
      np_random_normal r loc scale (replications self) = (Raise e, r').
Proof.
  induction treatments as [|i treatments IH]; intros data rng rng' e Hrun.
  - discriminate.
  - cbn [generate_loop] in Hrun.
    destruct (generate_observations RNG np_random_normal self _ _ rng)
      as [[obs|e0] rng1] eqn:Eobs.
    + eapply IH. exact Hrun.
    + injection Hrun as <- <-.
      apply generate_observations_raise in Eobs. eauto.
Qed.

Lemma Forall2_column_names (self : t) (treatments : list Z)
    (cols : list (string * list F64.t)) :
  Forall2 (column_of_treatment RNG np_random_normal self) treatments cols ->
  map fst cols = map treatment_name treatments.
Proof.
  induction 1 as [|i col treatments cols [Hname _] _ IH];
    [reflexivity|].
  cbn [map]. now rewrite Hname, IH.
Qed.
End GeneratorFacts.

Lemma py_truediv_digits_nat (n m : nat) :
  (n <= 81)%nat -> (m <= 8)%nat ->
  py_truediv (Z.of_nat n) (Z.of_nat (S m))
  = Ok (F64.div (F64.of_int (Z.of_nat n)) (F64.of_int (Z.of_nat (S m)))).
Proof.
  intros Hn Hm.
  do 82 (destruct n as [|n];
         [do 9 (destruct m as [|m]; [vm_compute; reflexivity|]); lia|]).
  lia.
Qed.

(** On a product of two digits over a non-zero digit the true division is
    the binary64 division of the two integers, and it raises nothing. *)
Lemma py_truediv_digits (m2 d2 y2 : Z) :
  0 <= m2 <= 9 -> 0 <= d2 <= 9 -> 1 <= y2 <= 9 ->
  py_truediv (m2 * d2) y2
  = Ok (F64.div (F64.of_int (m2 * d2)) (F64.of_int y2)).
Proof.
  intros Hm Hd Hy.
  assert (Ha : 0 <= m2 * d2 <= 81) by nia.
  replace (m2 * d2) with (Z.of_nat (Z.to_nat (m2 * d2))) by lia.
  replace y2 with (Z.of_nat (S (Z.to_nat (y2 - 1)))) by lia.
  apply py_truediv_digits_nat; lia.
Qed.

(** C7.  For digits [m2], [d2] and a non-zero digit [y2] the generator is
    built with [max(4, d1 + d2)] treatments and the one target standard deviation
    [(m2 * d2) / y2].  A generated table has that many columns, named
    Treatment_1, Treatment_2, ... in the order of the treatments, and the
    column of treatment [i] is the sample drawn for the target mean
    [m2 * d2 + i * y2] and the shared standard deviation. *)
Theorem generator_derived_quantities
    (d1 d2 m1 m2 y1 y2 replications : Z) (tol_mean tol_std : F64.t)
    (num_decimals : Z) :
  0 <= m2 <= 9 -> 0 <= d2 <= 9 -> 1 <= y2 <= 9 ->
  exists g,
    ANOVADataGenerator.__init__ d1 d2 m1 m2 y1 y2 replications
                                tol_mean tol_std num_decimals = Ok g /\
    ANOVADataGenerator.num_treatments g = Z.max 4 (d1 + d2) /\
    ANOVADataGenerator.target_std g
    = F64.div (F64.of_int (m2 * d2)) (F64.of_int y2) /\
    forall (RNG : Type)
           (np_random_normal :
              RNG -> F64.t -> F64.t -> Z -> result (list F64.t) * RNG)
           (rng rng' : RNG) (table : list (string * list F64.t)),
      ANOVADataGenerator.generate_data RNG np_random_normal g rng
      = (Ok table, rng') ->
      len table = Z.max 4 (d1 + d2) /\
      map fst table
      = map (fun i => ("Treatment_" ++ str_of_int i)%string)
            (py_range 1 (Z.max 4 (d1 + d2) + 1)) /\
      Forall2
        (fun i col =>
           exists r r',
             ANOVADataGenerator.generate_observations RNG np_random_normal g
               (m2 * d2 + i * y2)
               (F64.div (F64.of_int (m2 * d2)) (F64.of_int y2)) r
             = (Ok (snd col), r'))
        (py_range 1 (Z.max 4 (d1 + d2) + 1)) table.
Proof.
  intros Hm2 Hd2 Hy2.
  unfold ANOVADataGenerator.__init__.
  rewrite (py_truediv_digits m2 d2 y2 Hm2 Hd2 Hy2).
  cbn [bind]. eexists. split; [reflexivity|].
  cbn [ANOVADataGenerator.num_treatments ANOVADataGenerator.target_std].
  split; [reflexivity|]. split; [reflexivity|].
  intros RNG np_random_normal rng rng' table Hrun.
  unfold ANOVADataGenerator.generate_data in Hrun.
  cbn [ANOVADataGenerator.num_treatments] in Hrun.
  apply generate_loop_columns in Hrun as (cols & -> & Hcols).
  - cbn [app]. split; [|split].
    + apply Forall2_length in Hcols. unfold len. rewrite <- Hcols.
      rewrite length_py_range. lia.
    + exact (Forall2_column_names _ _ _ _ _ Hcols).
    + revert Hcols. apply Forall2_impl. intros i col [_ Hobs]. exact Hobs.
  - apply NoDup_treatment_names.
  - intros i _ [].
Qed.

(** C9, as the program has it.  When the second digit of the year is 0 the
    run fails with the division by zero of the constructor and the random
    source is left as it was, whatever the sampler.  For digits with a
    non-zero [y2] the constructor accepts any number of replications, and a
    run can only fail with an exception that the sampler itself raised for
    that size. *)
Theorem generator_configuration_errors
    (RNG : Type)
    (np_random_normal :
       RNG -> F64.t -> F64.t -> Z -> result (list F64.t) * RNG)
    (d1 d2 m1 m2 y1 y2 replications : Z) (tol_mean tol_std : F64.t)
    (num_decimals : Z) (rng : RNG) :
  (y2 = 0 ->
   DataGeneratorGUI.generate_data RNG np_random_normal d1 d2 m1 m2 y1 y2
     replications tol_mean tol_std num_decimals rng
   = (Raise (ZeroDivisionError "division by zero"), rng)) /\
  (0 <= m2 <= 9 -> 0 <= d2 <= 9 -> 1 <= y2 <= 9 ->
   exists g,
     ANOVADataGenerator.__init__ d1 d2 m1 m2 y1 y2 replications
                                 tol_mean tol_std num_decimals = Ok g /\
     ANOVADataGenerator.replications g = replications /\
     forall (e : exception) (rng' : RNG),
       DataGeneratorGUI.generate_data RNG np_random_normal d1 d2 m1 m2 y1 y2
         replications tol_mean tol_std num_decimals rng
       = (Raise e, rng') ->
       exists r r' loc scale,
         np_random_normal r loc scale replications = (Raise e, r')).
Proof.
  unfold DataGeneratorGUI.generate_data, ANOVADataGenerator.__init__.
  split.
  - intros ->. reflexivity.
  - intros Hm2 Hd2 Hy2.
    rewrite (py_truediv_digits m2 d2 y2 Hm2 Hd2 Hy2).
    cbn [bind]. eexists. split; [reflexivity|].
    split; [reflexivity|].
    intros e rng' Hrun.
    unfold ANOVADataGenerator.generate_data in Hrun.
    apply generate_loop_raise in Hrun. exact Hrun.
Qed.

Lemma np_sum_short (a : list F64.t) :
  (List.length a < 8)%nat ->
  np_sum a = F64.add np_zero (fold_left F64.add a np_zero).
Proof.
  intros Hlen.
  do 8 (destruct a as [|? a]; [reflexivity|]).
  cbn [List.length] in Hlen. lia.
Qed.


(** C10.  With a single replication the sample standard deviation (the
    denominator n - 1 is 0) is NaN, whatever binary64 number is drawn.  When
    the draw misses the target mean by more than [tol_mean], the unguarded
    rescale divides by that NaN and the treatment column is the single
    value NaN; otherwise the column is the rounded draw.  The generator
    raises nothing in either case. *)
Theorem generate_observations_single_nan
    (RNG : Type)
    (np_random_normal : RNG -> F64.t -> F64.t -> Z -> result (list F64.t) * RNG)
    (self : ANOVADataGenerator.t) (target_mean : Z) (target_std : F64.t)
    (rng rng' : RNG) (x : F64.t) :
  ANOVADataGenerator.replications self = 1 ->
  canonical x ->
  np_random_normal rng (F64.of_int target_mean) target_std 1
  = (Ok [x], rng') ->
  np_std [x] 1 = F64.nan /\
  ANOVADataGenerator.generate_observations RNG np_random_normal self
    target_mean target_std rng
  = (Ok [if F64.gtb (F64.abs (F64.sub (np_mean [x])
                                      (F64.of_int target_mean)))
                    (ANOVADataGenerator.tol_mean self)
         then F64.nan
         else np_round x (ANOVADataGenerator.num_decimals self)], rng').
Proof.
  intros Hrep Hx Hdraw.
  pose proof (np_std_single x Hx) as Hstd.
  split; [exact Hstd|].
  unfold ANOVADataGenerator.generate_observations.
  rewrite Hrep, Hdraw, Hstd.
  unfold ANOVADataGenerator.out_of_tolerance.
  rewrite gtb_nan_deviation, orb_false_r.
  destruct (F64.gtb _ _); cbn [map]; [|reflexivity].
  unfold ANOVADataGenerator.rescale. rewrite div_nan_r.
  change (F64.mul F64.nan target_std) with F64.nan.
  change (F64.add F64.nan (F64.of_int target_mean)) with F64.nan.
  now rewrite np_round_nan.
Qed.

Lemma generate_observations_single_nan_witness :
  canonical (tape 7) /\
  replay tape 7%nat (F64.of_int 10) (F64.div (F64.of_int 6) (F64.of_int 4)) 1
  = (Ok [tape 7], 8%nat) /\
  ANOVADataGenerator.generate_observations nat (replay tape)
    (demo_generator 1) 10 (F64.div (F64.of_int 6) (F64.of_int 4)) 7%nat
  = (Ok [F64.nan], 8%nat).
Proof.
  split; [reflexivity|]. split; [reflexivity|].
  destruct (generate_observations_single_nan nat (replay tape)
              (demo_generator 1) 10 (F64.div (F64.of_int 6) (F64.of_int 4))
              7%nat 8%nat (tape 7) eq_refl eq_refl eq_refl) as [_ Hrun].
  rewrite Hrun. reflexivity.
Defined.

Lemma generator_derived_quantities_witness :
  exists g table,
    ANOVADataGenerator.__init__ 1 2 0 3 2 4 3 default_alpha default_alpha 2
    = Ok g /\
    ANOVADataGenerator.num_treatments g = 4 /\
    ANOVADataGenerator.target_std g = F64.div (F64.of_int 6) (F64.of_int 4) /\
    ANOVADataGenerator.generate_data nat (replay tape) g 0%nat
    = (Ok table, 12%nat) /\
    map fst table
    = ["Treatment_1"; "Treatment_2"; "Treatment_3"; "Treatment_4"]%string.
Proof.
  destruct (generator_derived_quantities 1 2 0 3 2 4 3 default_alpha
              default_alpha 2) as (g & Hg & Hnt & Hstd & Hdata);
    [lia | lia | lia |].
  vm_compute in Hg. injection Hg as <-.
  eexists _, _. split; [reflexivity|].
  split; [exact Hnt|]. split; [exact Hstd|].
  split; [vm_compute; reflexivity|].
  match goal with
  | |- map fst ?table = _ =>
      destruct (Hdata nat (replay tape) 0%nat 12%nat table)
        as (_ & Hnames & _); [vm_compute; reflexivity | exact Hnames]
  end.
Defined.


Lemma generator_configuration_errors_witness :
  DataGeneratorGUI.generate_data nat (replay tape) 1 2 0 3 2 0 25
    default_alpha default_alpha 2 0%nat
  = (Raise (ZeroDivisionError "division by zero"), 0%nat) /\
  exists g,
    ANOVADataGenerator.__init__ 1 2 0 3 2 4 (-1) default_alpha
                                default_alpha 2 = Ok g /\
    ANOVADataGenerator.replications g = -1.
Proof.
  split.
  - apply (generator_configuration_errors nat (replay tape) 1 2 0 3 2 0 25
             default_alpha default_alpha 2 0%nat). reflexivity.
  - destruct (generator_configuration_errors nat (replay tape) 1 2 0 3 2 4
                (-1) default_alpha default_alpha 2 0%nat) as [_ Hinit].
    destruct Hinit as (g & Hg & Hrep & _); [lia | lia | lia |].
    exists g. split; [exact Hg | exact Hrep].
Defined.

(** C9, as the specification has it, fails: with 0 replications and a
    non-zero year digit nothing is rejected, and the run returns the four
    treatment columns, all empty. *)
Lemma generator_zero_replications_counterexample :
  DataGeneratorGUI.generate_data nat (replay tape) 1 2 0 3 2 4 0
    default_alpha default_alpha 2 0%nat
  = (Ok [("Treatment_1", []); ("Treatment_2", []);
         ("Treatment_3", []); ("Treatment_4", [])]%string, 0%nat).
Proof. vm_compute. reflexivity. Qed.

(** The rounding of ties, on binary64 values: 0.5 and 2.5 go down to the
    even neighbour, 1.5 goes up to it, and the sign of -0.5 is kept. *)
Example rint_ties :
  F64.rint (F64.div (F64.of_int 1) (F64.of_int 2)) = F64.of_int 0 /\
  F64.rint (F64.div (F64.of_int 3) (F64.of_int 2)) = F64.of_int 2 /\
  F64.rint (F64.div (F64.of_int 5) (F64.of_int 2)) = F64.of_int 2 /\
  F64.rint (F64.div (F64.of_int (-1)) (F64.of_int 2)) = S754_zero true.
Proof. repeat split; vm_compute; reflexivity. Qed.

(** The significance level read in the entry: a numeral is taken as it is,
    white space around it is ignored, and anything else gives 0.05. *)
Example read_alpha_examples :
  read_alpha read_decimal "0.01" = F64.div (F64.of_int 1) (F64.of_int 100) /\
  read_alpha read_decimal " 0.01 " = F64.div (F64.of_int 1) (F64.of_int 100) /\
  read_alpha read_decimal "abc" = default_alpha /\
  read_alpha read_decimal "" = default_alpha.
Proof. repeat split; vm_compute; reflexivity. Qed.

(** * Further properties *)

(** ** More on [perform_anova] *)

Lemma cleaned_arrays_valid_cols (parse_number : string -> option number)
    (df : DataFrame) :
  cleaned_arrays parse_number df
  = map (fun c => (fst c, dropna (snd c)))
        (valid_cols (numeric_only parse_number df)).
Proof.
  unfold cleaned_arrays, valid_cols, numeric_only.
  induction (columns df) as [|[l c] cols IH]; [reflexivity|].
  cbn [map filter]. rewrite IH.
  destruct (empty (dropna (to_numeric parse_number c)));
    cbn [negb map fst snd]; reflexivity.
Qed.

Lemma len_cleaned_arrays (parse_number : string -> option number)
    (df : DataFrame) :
  len (cleaned_arrays parse_number df)
  = len (numeric_columns parse_number df).
Proof.
  now rewrite cleaned_arrays_valid_cols, len_map, len_valid_cols.
Qed.

Lemma len_cleaned (parse_number : string -> option number) (df : DataFrame) :
  len (cleaned parse_number df) = len (numeric_columns parse_number df).
Proof. unfold cleaned. now rewrite len_map, len_cleaned_arrays. Qed.

Lemma arrays_of_cleaned (parse_number : string -> option number)
    (df : DataFrame) :
  arrays_of parse_number df = map snd (cleaned_arrays parse_number df).
Proof.
  unfold arrays_of. rewrite build_groups_valid_cols, cleaned_arrays_valid_cols.
  cbn [snd]. now rewrite map_map.
Qed.

Lemma groups_of_cleaned (parse_number : string -> option number)
    (df : DataFrame) :
  groups_of parse_number df = map snd (cleaned parse_number df).
Proof.
  unfold groups_of, cleaned. rewrite arrays_of_cleaned, !map_map.
  apply map_ext. intros [l vals]. reflexivity.
Qed.

(** [perform_anova] through the cleaned columns. *)
Lemma perform_anova_cleaned
    (py_float : string -> option F64.t)
    (parse_number : string -> option number)
    (f_oneway : list (list F64.t) -> F64.t * F64.t)
    (pow : F64.t -> F64.t -> F64.t)
    (df : DataFrame) (alpha_entry : string) :
  perform_anova py_float parse_number f_oneway pow df alpha_entry
  = if len (cleaned_arrays parse_number df) <? 2
    then Raise (ValueError msg_columns)
    else anova_of_groups f_oneway pow (read_alpha py_float alpha_entry)
           (map fst (cleaned_arrays parse_number df))
           (map snd (cleaned_arrays parse_number df)).
Proof.
  unfold perform_anova.
  rewrite build_groups_valid_cols, cleaned_arrays_valid_cols, len_map,
    !map_map.
  reflexivity.
Qed.

Lemma len_concat_nonempty {A} (groups : list (list A)) :
  Forall (fun g => g <> []) groups -> len groups <= len (concat groups).
Proof.
  induction 1 as [|g groups Hg _ IH]; [reflexivity|].
  cbn [concat]. rewrite len_cons, len_app.
  destruct g as [|x g]; [congruence|].
  rewrite len_cons. pose proof (len_nonneg g). lia.
Qed.

Lemma cleaned_arrays_nonempty (parse_number : string -> option number)
    (df : DataFrame) :
  Forall (fun g => 1 <= array_len (snd g)) (cleaned_arrays parse_number df).
Proof.
  apply Forall_forall. intros [l vals] Hin.
  apply filter_In in Hin as [_ Hne]. cbn [snd].
  unfold empty in Hne. apply negb_true_iff, Z.eqb_neq in Hne.
  pose proof (array_len_nonneg vals). lia.
Qed.

Lemma sizes_as_float (arrays : list ndarray) :
  py_sum_int (map array_len arrays) = len (concat (map as_float arrays)).
Proof.
  rewrite <- py_sum_int_sizes, map_map. f_equal.
  apply map_ext. intros g. symmetry. apply len_as_float.
Qed.

(** X1.  The only way a run fails is the first check: whatever the table
    and the entry, an exception of [perform_anova] is the "two columns"
    error, raised when fewer than two columns retain a numeric value.  The
    check on the groups and the divisions of the core never raise. *)
Theorem perform_anova_only_failure
    (py_float : string -> option F64.t)
    (parse_number : string -> option number)
    (f_oneway : list (list F64.t) -> F64.t * F64.t)
    (pow : F64.t -> F64.t -> F64.t)
    (df : DataFrame) (alpha_entry : string) (e : exception) :
  perform_anova py_float parse_number f_oneway pow df alpha_entry = Raise e ->
  e = ValueError "At least two columns must contain numeric data." /\
  len (numeric_columns parse_number df) < 2.
Proof.
  intros Hrun.
  destruct (Z.lt_ge_cases (len (numeric_columns parse_number df)) 2) as [L|L].
  - rewrite (perform_anova_too_few py_float parse_number f_oneway pow df
               alpha_entry L) in Hrun.
    injection Hrun as <-. split; [reflexivity | exact L].
  - destruct (perform_anova_ok py_float parse_number f_oneway pow df
                alpha_entry) as (infos & t & _ & E); [lia|].
    rewrite E in Hrun. discriminate.
Qed.

Lemma perform_anova_only_failure_witness :
  perform_anova read_decimal read_number f_oneway_degenerate pow_cr
                one_numeric_frame "0.05"
  = Raise (ValueError "At least two columns must contain numeric data.") /\
  len (numeric_columns read_number one_numeric_frame) < 2.
Proof.
  assert (E : perform_anova read_decimal read_number f_oneway_degenerate
                pow_cr one_numeric_frame "0.05"
              = Raise (ValueError msg_columns)) by reflexivity.
  destruct (perform_anova_only_failure _ _ _ _ _ _ _ E) as [_ Hcols].
  split; [exact E | exact Hcols].
Defined.



(** X3.  In every run that returns a table, with p the number of columns
    that retain a numeric value and n the number of values retained in
    all: the degrees of freedom are p - 1, n - p and n - 1, the first two
    add up to the third, there is at least one for the treatments, and the
    one of the error is never negative (it is 0 when every group has one
    value). *)
Theorem perform_anova_degrees_of_freedom
    (py_float : string -> option F64.t)
    (parse_number : string -> option number)
    (f_oneway : list (list F64.t) -> F64.t * F64.t)
    (pow : F64.t -> F64.t -> F64.t)
    (df : DataFrame) (alpha_entry : string)
    (r : list group_info * anova_result) :
  perform_anova py_float parse_number f_oneway pow df alpha_entry = Ok r ->
  let t := table (snd r) in
  let p := len (numeric_columns parse_number df) in
  let n := len (concat (map snd (cleaned parse_number df))) in
  df_treat t = p - 1 /\ df_error t = n - p /\ df_total t = n - 1 /\
  df_treat t + df_error t = df_total t /\
  1 <= df_treat t /\ 0 <= df_error t.
Proof.
  intros Hrun t p n.
  destruct (Z.lt_ge_cases p 2) as [L|L].
  { unfold p in L.
    rewrite (perform_anova_too_few py_float parse_number f_oneway pow df
               alpha_entry L) in Hrun. discriminate. }
  destruct (perform_anova_ok py_float parse_number f_oneway pow df
              alpha_entry L) as (infos & t' & Ht & E).
  rewrite E in Hrun. injection Hrun as <-.
  unfold t; cbn [snd table].
  destruct (perform_anova_core_fields _ _ _ Ht) as (H1 & H2 & H3 & _ & _).
  cbn [size Arrays_np] in H2, H3.
  rewrite sizes_as_float in H2, H3.
  pose proof (len_concat_nonempty _ (groups_of_nonempty parse_number df))
    as Hnp.
  fold (groups_of parse_number df) in H2, H3.
  rewrite len_arrays_of in H1, H2.
  rewrite len_groups_of in Hnp.
  rewrite groups_of_cleaned in H2, H3, Hnp.
  fold p in H1, H2, Hnp. fold n in H2, H3, Hnp.
  lia.
Qed.

Lemma perform_anova_degrees_of_freedom_witness :
  exists r,
    perform_anova read_decimal read_number f_oneway_abc pow_cr abc_frame
                  "0.05"
    = Ok r /\
    df_treat (table (snd r)) = 2 /\
    df_error (table (snd r)) = 6 /\
    df_total (table (snd r)) = 8.
Proof.
  eexists. split; [vm_compute; reflexivity|].
  match goal with
  | |- df_treat (table (snd ?r)) = _ /\ _ =>
      destruct (perform_anova_degrees_of_freedom read_decimal read_number
                  f_oneway_abc pow_cr abc_frame "0.05" r eq_refl)
        as (H1 & H2 & H3 & _)
  end.
  rewrite H1, H2, H3. repeat split; reflexivity.
Defined.

Lemma div_by_nan_or_inf (x y : F64.t) :
  F64.isnan y || F64.is_inf y = true ->
  F64.isnan (F64.div x y) || F64.is_zero (F64.div x y) = true.
Proof.
  destruct y; try discriminate; intros _; destruct x; reflexivity.
Qed.

(** X4.  Nothing checks that there are more observations than groups.
    When the error has 0 degrees of freedom (every group has a single
    value) the run still returns its tables: the error mean square is the
    quotient by zero, NaN or an infinity, and the F statistic is NaN or a
    zero. *)
Theorem perform_anova_no_error_freedom
    (py_float : string -> option F64.t)
    (parse_number : string -> option number)
    (f_oneway : list (list F64.t) -> F64.t * F64.t)
    (pow : F64.t -> F64.t -> F64.t)
    (df : DataFrame) (alpha_entry : string)
    (r : list group_info * anova_result) :
  perform_anova py_float parse_number f_oneway pow df alpha_entry = Ok r ->
  df_error (table (snd r)) = 0 ->
  F64.isnan (MSE (table (snd r))) || F64.is_inf (MSE (table (snd r))) = true
  /\
  F64.isnan (F_calculated (table (snd r)))
  || F64.is_zero (F_calculated (table (snd r))) = true.
Proof.
  intros Hrun Hdf.
  destruct (Z.lt_ge_cases (len (numeric_columns parse_number df)) 2) as [L|L].
  { rewrite (perform_anova_too_few py_float parse_number f_oneway pow df
               alpha_entry L) in Hrun. discriminate. }
  destruct (perform_anova_ok py_float parse_number f_oneway pow df
              alpha_entry L) as (infos & t & Ht & E).
  rewrite E in Hrun. injection Hrun as <-. cbn [snd table] in *.
  destruct (perform_anova_core_fields _ _ _ Ht) as (_ & _ & _ & _ & HMSE).
  destruct (perform_anova_core_F _ _ _ Ht) as [HF _].
  change (@div F64.t Arith_F64) with F64.div in HMSE, HF.
  change (@of_int F64.t Arith_F64) with F64.of_int in HMSE.
  rewrite Hdf in HMSE.
  assert (Hm : F64.isnan (MSE t) || F64.is_inf (MSE t) = true)
    by (rewrite HMSE; now apply div_by_zero).
  split; [exact Hm|]. rewrite HF. now apply div_by_nan_or_inf.
Qed.

Lemma perform_anova_no_error_freedom_witness :
  exists r,
    perform_anova read_decimal read_number f_oneway_degenerate pow_cr
      single_value_frame "0.05"
    = Ok r /\
    df_error (table (snd r)) = 0 /\
    F64.isnan (MSE (table (snd r))) || F64.is_inf (MSE (table (snd r)))
    = true.
Proof.
  eexists. split; [vm_compute; reflexivity|].
  split; [reflexivity|].
  match goal with
  | |- F64.isnan (MSE (table (snd ?r))) || _ = true =>
      exact (proj1 (perform_anova_no_error_freedom read_decimal read_number
                      f_oneway_degenerate pow_cr single_value_frame "0.05" r
                      eq_refl eq_refl))
  end.
Defined.

Lemma cleaned_arrays_app (parse_number : string -> option number)
    (idx1 idx2 : option label) (i1 i2 : list string)
    (cols1 cols2 : list (label * list string)) :
  cleaned_arrays parse_number
    {| index_name := idx1; index := i1; columns := cols1 ++ cols2 |}
  = cleaned_arrays parse_number
      {| index_name := idx2; index := i2; columns := cols1 |}
    ++ cleaned_arrays parse_number
         {| index_name := idx2; index := i2; columns := cols2 |}.
Proof.
  unfold cleaned_arrays; cbn [columns]. now rewrite map_app, filter_app.
Qed.

Lemma cleaned_arrays_cons (parse_number : string -> option number)
    (idx : option label) (i : list string) (l : label) (c : list string)
    (cols : list (label * list string)) :
  cleaned_arrays parse_number
    {| index_name := idx; index := i; columns := (l, c) :: cols |}
  = (if empty (dropna (to_numeric parse_number c)) then []
     else [(l, dropna (to_numeric parse_number c))])
    ++ cleaned_arrays parse_number
         {| index_name := idx; index := i; columns := cols |}.
Proof.
  unfold cleaned_arrays; cbn [columns map filter].
  destruct (empty (dropna (to_numeric parse_number c))); reflexivity.
Qed.

(** X5.  A column without any numeric cell has no influence: wherever it
    stands in the table, the run gives what it gives on the table without
    that column, be it the tables or the error. *)
Theorem perform_anova_text_column
    (py_float : string -> option F64.t)
    (parse_number : string -> option number)
    (f_oneway : list (list F64.t) -> F64.t * F64.t)
    (pow : F64.t -> F64.t -> F64.t)
    (idx : option label) (i : list string)
    (cols1 cols2 : list (label * list string))
    (l : label) (c : list string) (alpha_entry : string) :
  retains_numeric parse_number c = false ->
  perform_anova py_float parse_number f_oneway pow
    {| index_name := idx; index := i; columns := cols1 ++ (l, c) :: cols2 |}
    alpha_entry
  = perform_anova py_float parse_number f_oneway pow
      {| index_name := idx; index := i; columns := cols1 ++ cols2 |}
      alpha_entry.
Proof.
  intros Hc. rewrite !perform_anova_cleaned.
  rewrite (cleaned_arrays_app parse_number idx idx i i cols1
             ((l, c) :: cols2)).
  rewrite (cleaned_arrays_app parse_number idx idx i i cols1 cols2).
  rewrite cleaned_arrays_cons.
  rewrite <- dropna_retains in Hc. apply negb_false_iff in Hc.
  rewrite Hc. reflexivity.
Qed.

Lemma perform_anova_text_column_witness :
  perform_anova read_decimal read_number f_oneway_abc pow_cr
    (frame_of [(LStr "A", ["1"; "2"; "3"]); (LStr "note", ["x"; ""; "z"]);
               (LStr "B", ["5"; "6"; "7"]); (LStr "C", ["9"; "10"; "11"])]%string)
    "0.05"
  = perform_anova read_decimal read_number f_oneway_abc pow_cr abc_frame
                  "0.05".
Proof.
  exact (perform_anova_text_column read_decimal read_number f_oneway_abc
           pow_cr None []
           [(LStr "A", ["1"; "2"; "3"])]%string
           [(LStr "B", ["5"; "6"; "7"]); (LStr "C", ["9"; "10"; "11"])]%string
           (LStr "note") ["x"; ""; "z"]%string "0.05" eq_refl).
Defined.

Lemma float_cell_not_numeric (parse_number : string -> option number)
    (s : string) :
  not_numeric parse_number s ->
  F64.isnan (float_cell parse_number s) = true.
Proof.
  unfold not_numeric, float_cell.
  destruct (parse_number s) as [[z|x]|]; [contradiction | tauto | reflexivity].
Qed.

Lemma dropna_not_numeric (parse_number : string -> option number)
    (c1 c2 : list string) (s : string) :
  not_numeric parse_number s ->
  dropna (to_numeric parse_number (c1 ++ s :: c2))
  = Float64Array
      (filter (fun x => negb (F64.isnan x))
              (map (float_cell parse_number) (c1 ++ c2))).
Proof.
  intros Hs. unfold to_numeric.
  rewrite (all_int64_none parse_number c1 c2 s Hs). cbn [dropna].
  rewrite !map_app, !filter_app. cbn [map filter].
  now rewrite (float_cell_not_numeric parse_number s Hs).
Qed.



(** ** More on [load_csv] *)

Lemma length_column_of (rows : list (list string)) (j : nat) :
  List.length (column_of rows j) = List.length rows.
Proof. unfold column_of. apply length_map. Qed.

Lemma Forall_columns_combine {L} (labels : list L) (rows : list (list string))
    (js : list nat) :
  Forall (fun c => List.length (snd c) = List.length rows)
         (combine labels (map (column_of rows) js)).
Proof.
  revert labels. induction js as [|j js IH]; intros [|l labels]; cbn [map combine];
    try constructor.
  - cbn [snd]. apply length_column_of.
  - apply IH.
Qed.

(** The frame of a file without header row, with or without index column. *)
Lemma load_csv_no_header (first : list string) (rest : list (list string))
    (has_header has_index : string) :
  String.eqb has_header "yes" = false ->
  (String.eqb has_index "yes" = true -> first <> []) ->
  load_csv (first :: rest) has_header has_index
  = Ok {| index_name := None; index := [];
          columns := combine (group_names (len first))
                             (map (column_of (first :: rest))
                                  (seq 0 (List.length first))) |}.
Proof.
  intros Hh Hi. unfold load_csv. rewrite Hh.
  destruct (String.eqb has_index "yes").
  - destruct first as [|c first']; [now specialize (Hi eq_refl)|].
    rewrite read_csv_no_header. cbn [List.length seq map combine bind].
    unfold set_columns, reset_index, shape1.
    cbn [index_name index columns map snd List.length].
    rewrite map_snd_combine by now rewrite !length_map.
    replace (len (combine (map (fun j => LInt (Z.of_nat j))
                               (seq 1 (List.length first')))
                          (map (column_of ((c :: first') :: rest))
                               (seq 1 (List.length first')))) + 1)
      with (len (c :: first')).
    2: { rewrite len_cons. unfold len.
         rewrite length_combine, !length_map, length_seq, Nat.min_id. lia. }
    rewrite length_group_names, length_combine, !length_map, length_seq,
      Nat.min_id.
    replace (Z.to_nat (len (c :: first')) =? S (List.length first'))%nat
      with true.
    2: { symmetry. apply Nat.eqb_eq. unfold len. cbn [List.length]. lia. }
    reflexivity.
  - rewrite read_csv_no_header. cbn [bind].
    unfold set_columns, shape1. cbn [index_name index columns].
    rewrite map_snd_combine by now rewrite !length_map.
    replace (len (combine (map (fun j => LInt (Z.of_nat j))
                               (seq 0 (List.length first)))
                          (map (column_of (first :: rest))
                               (seq 0 (List.length first)))))
      with (len first).
    2: { unfold len.
         now rewrite length_combine, !length_map, length_seq, Nat.min_id. }
    rewrite length_group_names, length_combine, !length_map, length_seq,
      Nat.min_id.
    replace (Z.to_nat (len first) =? List.length first)%nat with true.
    2: { symmetry. apply Nat.eqb_eq. unfold len. lia. }
    reflexivity.
Qed.

(** X7.  Without a header row the index option changes nothing: the first
    column is taken out as index and put back in front before the columns
    are renamed, so that the frame is the one loaded without the option
    and the index column is analysed as Group0. *)
Theorem load_csv_index_without_header (first : list string)
    (rest : list (list string)) :
  first <> [] ->
  load_csv (first :: rest) "no" "yes" = load_csv (first :: rest) "no" "no".
Proof.
  intros Hfirst.
  rewrite (load_csv_no_header first rest "no" "yes" eq_refl (fun _ => Hfirst)).
  rewrite (load_csv_no_header first rest "no" "no" eq_refl).
  - reflexivity.
  - discriminate.
Qed.

Lemma load_csv_index_without_header_witness :
  load_csv [["r1"; "1"; "2"]; ["r2"; "3"; "4"]]%string "no" "yes"
  = Ok (frame_of [(LStr "Group0", ["r1"; "r2"]);
                  (LStr "Group1", ["1"; "3"]);
                  (LStr "Group2", ["2"; "4"])]%string).
Proof.
  rewrite (load_csv_index_without_header ["r1"; "1"; "2"]%string
             [["r2"; "3"; "4"]]%string); [reflexivity | discriminate].
Defined.



(** X9.  On a file whose rows all have as many fields as the first one,
    and at least one field, loading fails exactly when the file has no row
    at all, in each of the four modes; the error is then the one of
    [read_csv] on a file without columns, and the assignment of the column
    names never fails. *)
Theorem load_csv_failure (rows : list (list string))
    (has_header has_index : string) :
  rectangular rows ->
  Forall (fun row => row <> []) rows ->
  ((exists e, load_csv rows has_header has_index = Raise e) <-> rows = []) /\
  (rows = [] ->
   load_csv rows has_header has_index
   = Raise (ValueError "No columns to parse from file")).
Proof.
  intros _ Hfields. split; [split|].
  - intros [e Hload]. destruct rows as [|first rest]; [reflexivity|].
    exfalso. inversion Hfields as [|? ? Hfirst _]; subst.
    destruct first as [|h first']; [congruence|].
    destruct (String.eqb has_header "yes") eqn:Hh.
    + unfold load_csv in Hload. rewrite Hh in Hload.
      destruct (String.eqb has_index "yes"); discriminate.
    + rewrite (load_csv_no_header (h :: first') rest _ _ Hh) in Hload;
        [discriminate|]. intros _. discriminate.
  - intros ->. unfold load_csv.
    destruct (String.eqb has_index "yes"), (String.eqb has_header "yes");
      eexists; reflexivity.
  - intros ->. unfold load_csv.
    destruct (String.eqb has_index "yes"), (String.eqb has_header "yes");
      reflexivity.
Qed.

Lemma load_csv_failure_witness :
  rectangular [["id"; "g"]; ["a"; "1"]; ["b"; "3"]]%string /\
  (forall e,
     load_csv [["id"; "g"]; ["a"; "1"]; ["b"; "3"]]%string "yes" "yes"
     <> Raise e) /\
  load_csv [] "yes" "yes" = Raise (ValueError "No columns to parse from file").
Proof.
  assert (Hrect : rectangular [["id"; "g"]; ["a"; "1"]; ["b"; "3"]]%string)
    by (repeat constructor).
  assert (Hfields : Forall (fun row : list string => row <> [])
                      [["id"; "g"]; ["a"; "1"]; ["b"; "3"]]%string)
    by (repeat constructor; discriminate).
  split; [exact Hrect|]. split.
  - intros e E.
    destruct (load_csv_failure _ "yes" "yes" Hrect Hfields) as [[Hfail _] _].
    assert (Hnil : [["id"; "g"]; ["a"; "1"]; ["b"; "3"]]%string = [])
      by (apply Hfail; now exists e).
    discriminate.
  - exact (proj2 (load_csv_failure [] "yes" "yes" (Forall_nil _)
                    (Forall_nil _)) eq_refl).
Defined.

(** ** The window and the step display *)

(** X10.  [center_window] asks Tk for the given size at offsets that
    centre the window on the screen to within one pixel in each direction;
    the offsets are not negative when the window fits the screen. *)
Theorem center_window_centred (screen_width screen_height width height : Z) :
  exists x y,
    center_window screen_width screen_height width height
    = (str_of_int width ++ "x" ++ str_of_int height
       ++ "+" ++ str_of_int x ++ "+" ++ str_of_int y)%string /\
    Z.abs (2 * x + width - screen_width) <= 1 /\
    Z.abs (2 * y + height - screen_height) <= 1 /\
    (width <= screen_width -> 0 <= x) /\
    (height <= screen_height -> 0 <= y).
Proof.
  exists (screen_width / 2 - width / 2), (screen_height / 2 - height / 2).
  split; [reflexivity|].
  pose proof (Z.div_mod screen_width 2 ltac:(lia)).
  pose proof (Z.mod_pos_bound screen_width 2 ltac:(lia)).
  pose proof (Z.div_mod width 2 ltac:(lia)).
  pose proof (Z.mod_pos_bound width 2 ltac:(lia)).
  pose proof (Z.div_mod screen_height 2 ltac:(lia)).
  pose proof (Z.mod_pos_bound screen_height 2 ltac:(lia)).
  pose proof (Z.div_mod height 2 ltac:(lia)).
  pose proof (Z.mod_pos_bound height 2 ltac:(lia)).
  repeat split; lia.
Qed.

Lemma center_window_centred_witness :
  1200 <= 1920 /\ 800 <= 1080 /\
  exists x y,
    center_window 1920 1080 1200 800
    = (str_of_int 1200 ++ "x" ++ str_of_int 800
       ++ "+" ++ str_of_int x ++ "+" ++ str_of_int y)%string /\
    0 <= x /\ 0 <= y.
Proof.
  destruct (center_window_centred 1920 1080 1200 800)
    as (x & y & E & _ & _ & Hx & Hy).
  split; [lia|]. split; [lia|]. exists x, y.
  split; [exact E|]. split; [apply Hx; lia | apply Hy; lia].
Defined.

(** The window of the application on a screen of 1920 by 1080. *)
Example center_window_main :
  center_window 1920 1080 1200 800 = "1200x800+360+140"%string.
Proof. reflexivity. Qed.

Lemma last_cons_default {A} (a d : A) (l : list A) :
  last (a :: l) d = last l a.
Proof.
  revert a d. induction l as [|b l IH]; intros a d; [reflexivity|].
  change (last (a :: b :: l) d) with (last (b :: l) d).
  now rewrite !IH.
Qed.

Lemma skipn_nth_error {A} (l : list A) (k : nat) (x : A) :
  nth_error l k = Some x -> skipn k l = x :: skipn (S k) l.
Proof.
  revert k. induction l as [|a l IH]; intros [|k] E; try discriminate.
  - now injection E as ->.
  - cbn [skipn]. now apply IH.
Qed.

Lemma py_getitem_in_range {A} (l : list A) (k : nat) :
  (k < List.length l)%nat ->
  py_getitem l (Z.of_nat k) = nth_error l k.
Proof.
  intros Hk. unfold py_getitem, len.
  replace ((0 <=? Z.of_nat k) && (Z.of_nat k <? Z.of_nat (List.length l)))
    with true.
  - now rewrite Nat2Z.id.
  - symmetry. apply andb_true_iff. split; [apply Z.leb_le | apply Z.ltb_lt]; lia.
Qed.

Lemma timer_loop_from (steps : list string) (ticks : nat) :
  forall (k : nat) (text : string),
    (k <= List.length steps)%nat ->
    timer_loop steps ticks
      {| current_step := Z.of_nat k; step_label := text |}
    = Some (firstn ticks (skipn k steps),
            {| current_step :=
                 Z.of_nat (k + List.length (firstn ticks (skipn k steps)));
               step_label := last (firstn ticks (skipn k steps)) text |}).
Proof.
  induction ticks as [|ticks IH]; intros k text Hk.
  - cbn [timer_loop firstn List.length last]. now rewrite Nat.add_0_r.
  - cbn [timer_loop]. unfold show_steps. cbn [current_step].
    destruct (Z.of_nat k <? len steps) eqn:L.
    + apply Z.ltb_lt in L. unfold len in L.
      assert (Hlt : (k < List.length steps)%nat) by lia.
      rewrite (py_getitem_in_range steps k Hlt).
      destruct (nth_error steps k) as [t|] eqn:E.
      2: { apply nth_error_None in E. lia. }
      replace (Z.of_nat k + 1) with (Z.of_nat (S k)) by lia.
      rewrite (IH (S k) t) by lia. cbn [step_label].
      rewrite (skipn_nth_error steps k t E). cbn [firstn List.length].
      rewrite last_cons_default.
      replace (S k + List.length (firstn ticks (skipn (S k) steps)))%nat
        with (k + S (List.length (firstn ticks (skipn (S k) steps))))%nat
        by lia.
      reflexivity.
    + apply Z.ltb_ge in L. unfold len in L.
      assert (Hk' : k = List.length steps) by lia.
      rewrite (skipn_all2 steps) by lia.
      rewrite firstn_nil. cbn [List.length last]. now rewrite Nat.add_0_r.
Qed.

(** X11.  Started by [run_anova] at step 0, [show_steps] shows the steps
    one after the other, each once and in order, and stops asking for the
    timer after the last one: whatever the number of calls the event loop
    serves, no index is out of range, the texts shown are the first steps
    of the list, the counter is their number and the label keeps the last
    text shown. *)
Theorem show_steps_run (steps : list string) (ticks : nat) :
  timer_loop steps ticks stepper_reset
  = Some (firstn ticks steps,
          {| current_step := Z.of_nat (Nat.min ticks (List.length steps));
             step_label := last (firstn ticks steps) EmptyString |}).
Proof.
  unfold stepper_reset.
  change 0 with (Z.of_nat 0).
  rewrite (timer_loop_from steps ticks 0 EmptyString) by lia.
  cbn [skipn Nat.add]. now rewrite length_firstn.
Qed.

(** The five steps of the application, served six calls or more. *)
Example show_steps_anova :
  timer_loop anova_steps 6 stepper_reset
  = Some (anova_steps,
          {| current_step := 5;
             step_label := "Step 5: F = [SSTR/(p−1)] / [SSE/(n−p)]" |}).
Proof. reflexivity. Qed.

(** ** The dialog of the generator *)

Lemma In_py_range (lo hi i : Z) : In i (py_range lo hi) <-> lo <= i < hi.
Proof.
  unfold py_range. rewrite in_map_iff. split.
  - intros (k & <- & Hk). apply in_seq in Hk. lia.
  - intros Hi. exists (Z.to_nat (i - lo)). split; [lia|].
    apply in_seq. lia.
Qed.

Lemma two_digits_fmt02_nat (int_error : string -> string) (n : nat) :
  (n <= 99)%nat ->
  two_digits int_error (fmt02 (Z.of_nat n))
  = inl (Z.of_nat n / 10, Z.of_nat n mod 10).
Proof.
  intros Hn.
  do 100 (destruct n as [|n]; [vm_compute; reflexivity|]).
  lia.
Qed.

Lemma two_digits_of_fmt02 (int_error : string -> string) (i : Z) :
  0 <= i <= 99 ->
  two_digits int_error (fmt02 i) = inl (i / 10, i mod 10).
Proof.
  intros Hi. replace i with (Z.of_nat (Z.to_nat i)) by lia.
  apply two_digits_fmt02_nat. lia.
Qed.

(** X12.  Every option of the day, month and year menus is read back
    without error: its two characters are two digits, and the option is
    the two-digit writing of ten times the first plus the second. *)
Theorem menu_options_two_digits (int_error : string -> string) (s : string) :
  In s day_options \/ In s month_options \/ In s year_options ->
  exists d1 d2,
    two_digits int_error s = inl (d1, d2) /\
    0 <= d1 <= 9 /\ 0 <= d2 <= 9 /\
    s = fmt02 (10 * d1 + d2).
Proof.
  intros Hs.
  assert (Hi : exists i, 0 <= i <= 99 /\ s = fmt02 i).
  { destruct Hs as [Hs|[Hs|Hs]];
      apply in_map_iff in Hs as (i & <- & Hi); apply In_py_range in Hi;
      exists i; split; (lia || reflexivity). }
  destruct Hi as (i & Hi & ->).
  exists (i / 10), (i mod 10).
  split; [now apply two_digits_of_fmt02|].
  pose proof (Z.div_mod i 10 ltac:(lia)).
  pose proof (Z.mod_pos_bound i 10 ltac:(lia)).
  split; [lia|]. split; [lia|]. f_equal. lia.
Qed.

Lemma menu_options_two_digits_witness :
  In "29"%string day_options /\
  exists d1 d2,
    two_digits (fun s => s) "29" = inl (d1, d2) /\
    "29"%string = fmt02 (10 * d1 + d2).
Proof.
  assert (Hin : In "29"%string day_options).
  { change "29"%string with (fmt02 29). apply in_map, In_py_range. lia. }
  split; [exact Hin|].
  destruct (menu_options_two_digits (fun s => s) "29" (or_introl Hin))
    as (d1 & d2 & E & _ & _ & Hs).
  exists d1, d2. split; [exact E | exact Hs].
Defined.

(** X13.  Whatever day and month are chosen in the menus, a year whose
    last digit is 0 (ten of the hundred options) ends in the error dialog
    "An error occurred: division by zero"; nothing is drawn from the
    random source and no file name is made. *)
Theorem gui_generate_data_year_digit_zero
    (int_error : string -> string) (RNG : Type)
    (np_random_normal :
       RNG -> F64.t -> F64.t -> Z -> result (list F64.t) * RNG)
    (day month year replications : Z) (tol_mean tol_std : F64.t)
    (num_decimals : Z) (prefix_entry timestamp : string) (rng : RNG) :
  1 <= day <= 31 -> 1 <= month <= 12 -> 0 <= year <= 99 ->
  year mod 10 = 0 ->
  In (fmt02 day) day_options /\
  In (fmt02 month) month_options /\
  In (fmt02 year) year_options /\
  gui_generate_data int_error RNG np_random_normal
    (fmt02 day) (fmt02 month) (fmt02 year) replications tol_mean tol_std
    num_decimals prefix_entry timestamp rng
  = (ErrorDialog "An error occurred: division by zero", rng).
Proof.
  intros Hd Hm Hy Hy2.
  split; [apply in_map, In_py_range; lia|].
  split; [apply in_map, In_py_range; lia|].
  split; [apply in_map, In_py_range; lia|].
  unfold gui_generate_data.
  rewrite !two_digits_of_fmt02 by lia.
  unfold DataGeneratorGUI.generate_data, ANOVADataGenerator.__init__,
    py_truediv.
  rewrite Hy2. reflexivity.
Qed.

Lemma gui_generate_data_year_digit_zero_witness :
  gui_generate_data (fun s => s) nat (replay tape) "12" "03" "20" 25
    default_alpha default_alpha 2 "" "20240101_120000" 0%nat
  = (ErrorDialog "An error occurred: division by zero", 0%nat).
Proof.
  exact (proj2 (proj2 (proj2
           (gui_generate_data_year_digit_zero (fun s => s) nat (replay tape)
              12 3 20 25 default_alpha default_alpha 2 "" "20240101_120000"
              0%nat ltac:(lia) ltac:(lia) ltac:(lia) eq_refl)))).
Defined.

Lemma generate_observations_length (RNG : Type)
    (np_random_normal :
       RNG -> F64.t -> F64.t -> Z -> result (list F64.t) * RNG)
    (self : ANOVADataGenerator.t) (target_mean : Z) (target_std : F64.t)
    (rng rng' : RNG) (observations : list F64.t) :
  honours_size RNG np_random_normal ->
  ANOVADataGenerator.generate_observations RNG np_random_normal self
    target_mean target_std rng = (Ok observations, rng') ->
  len observations = ANOVADataGenerator.replications self.
Proof.
  intros Hsize. unfold ANOVADataGenerator.generate_observations.
  destruct (np_random_normal rng _ _ _) as [[xs|e] r] eqn:E; [|discriminate].
  intros Hrun. injection Hrun as <- _.
  apply Hsize in E. rewrite len_map.
  destruct (ANOVADataGenerator.out_of_tolerance _ _ _ _ _);
    [now rewrite len_map | exact E].
Qed.

(** X15.  When the sampler returns arrays of the size it is asked for,
    every column of a generated table has [replications] values: the
    columns have equal lengths, as the construction of the frame needs,
    whether a sample was rescaled or not. *)
Theorem generate_data_column_lengths (RNG : Type)
    (np_random_normal :
       RNG -> F64.t -> F64.t -> Z -> result (list F64.t) * RNG)
    (self : ANOVADataGenerator.t) (rng rng' : RNG)
    (table : list (string * list F64.t)) :
  honours_size RNG np_random_normal ->
  ANOVADataGenerator.generate_data RNG np_random_normal self rng
  = (Ok table, rng') ->
  Forall (fun col => len (snd col) = ANOVADataGenerator.replications self)
         table.
Proof.
  intros Hsize Hrun. unfold ANOVADataGenerator.generate_data in Hrun.
  apply generate_loop_columns in Hrun as (cols & -> & Hcols).
  - cbn [app]. induction Hcols as [|i col treatments cols [_ (r & r' & Hobs)] _ IH];
      constructor; [|exact IH].
    exact (generate_observations_length RNG np_random_normal self _ _ r r'
             (snd col) Hsize Hobs).
  - apply NoDup_treatment_names.
  - intros i _ [].
Qed.

Lemma replay_honours_size : honours_size nat (replay tape).
Proof.
  intros rng loc scale size xs rng'. unfold replay.
  destruct (size <? 0) eqn:L; [discriminate|].
  intros E. injection E as <- _. apply Z.ltb_ge in L.
  unfold len. rewrite length_map, length_seq. lia.
Defined.

Lemma generate_data_column_lengths_witness :
  exists table,
    ANOVADataGenerator.generate_data nat (replay tape) (demo_generator 3)
      0%nat = (Ok table, 12%nat) /\
    Forall (fun col => len (snd col) = 3) table.
Proof.
  eexists. split; [vm_compute; reflexivity|].
  exact (generate_data_column_lengths nat (replay tape) (demo_generator 3)
           0%nat 12%nat _ replay_honours_size eq_refl).
Defined.

Lemma generate_loop_never_raises (RNG : Type)
    (np_random_normal :
       RNG -> F64.t -> F64.t -> Z -> result (list F64.t) * RNG)
    (self : ANOVADataGenerator.t) (treatments : list Z)
    (data : list (string * list F64.t)) (rng : RNG) :
  never_raises RNG np_random_normal (ANOVADataGenerator.replications self) ->
  exists table rng',
    ANOVADataGenerator.generate_loop RNG np_random_normal self treatments
      data rng = (Ok table, rng').
Proof.
  intros Hok.
  destruct (ANOVADataGenerator.generate_loop RNG np_random_normal self
              treatments data rng) as [[table|e] rng'] eqn:E.
  - now exists table, rng'.
  - apply generate_loop_raise in E as (r & r' & loc & scale & Hraise).
    destruct (Hok r loc scale) as (xs & r'' & Hdraw).
    rewrite Hdraw in Hraise. discriminate.
Qed.

Lemma strip_only_spaces (s : string) :
  only_spaces s = true -> strip s = EmptyString.
Proof.
  intros Hs. unfold strip, lstrip.
  assert (E : strip_front false s = EmptyString).
  { induction s as [|c s IH]; [reflexivity|].
    cbn [only_spaces] in Hs. apply andb_true_iff in Hs as [Hc Hs].
    cbn [strip_front]. rewrite Hc. now apply IH. }
  rewrite E. reflexivity.
Qed.


Lemma replay_never_raises (size : Z) :
  0 <= size -> never_raises nat (replay tape) size.
Proof.
  intros Hsize rng loc scale. unfold replay.
  destruct (size <? 0) eqn:L; [apply Z.ltb_lt in L; lia|].
  eexists _, _. reflexivity.
Defined.


(** ** The error sum of squares without rounding *)

Lemma Qc_square_nonneg (x : Qc) : (Q2Qc 0 <= x * x)%Qc.
Proof.
  unfold Qcle, Qcmult, Q2Qc; cbn [this]. rewrite !Qred_correct.
  unfold Qle, Qmult; cbn [Qnum Qden]. rewrite Z.mul_1_r.
  change (0 * _) with 0. apply Z.square_nonneg.
Qed.

Lemma Qc_sigma_nonneg (l : list Qc) :
  Forall (fun x => (Q2Qc 0 <= x)%Qc) l -> (Q2Qc 0 <= sigma l)%Qc.
Proof.
  induction 1 as [|x l Hx _ IH].
  - apply Qcle_refl.
  - rewrite Qc_sigma_cons.
    rewrite <- (Qcplus_0_l (Q2Qc 0)). now apply Qcplus_le_compat.
Qed.

Lemma Qc_sigma_sub {A} (a b : A -> Qc) (l : list A) :
  sigma (map (fun g => (a g - b g)%Qc) l)
  = (sigma (map a l) - sigma (map b l))%Qc.
Proof.
  induction l as [|g l IH].
  - unfold sigma. cbn [map fold_right zero Arith_Qc]. ring.
  - cbn [map]. rewrite !Qc_sigma_cons, IH. ring.
Qed.

(** The squared deviations of a non-empty group from its mean. *)
Lemma Qc_group_deviations (g : list Qc) :
  g <> [] ->
  sigma (map (fun x => sq (sub x (group_mean g))) g)
  = (sigma (map sq g) - sq (sigma g) / of_int (len g))%Qc.
Proof.
  intros Hne. rewrite Qc_sum_sq_dev. unfold group_mean.
  assert (Hn : of_int (N := Qc) (len g) <> Q2Qc 0).
  { apply Qc_of_int_nonzero. destruct g; [congruence|].
    rewrite len_cons. pose proof (len_nonneg g). lia. }
  unfold sq; cbn [add sub mul div Arith_Qc].
  field. exact Hn.
Qed.

Lemma Qc_within_SS (groups : list (list Qc)) :
  Forall (fun g => g <> []) groups ->
  within_SS groups
  = (sigma (map sq (pooled groups))
     - sigma (map (fun g => div (sq (sigma g)) (of_int (len g))) groups))%Qc.
Proof.
  intros Hne. unfold within_SS, pooled.
  rewrite concat_map, <- Qc_sigma_concat, map_map, <- Qc_sigma_sub.
  f_equal. apply map_ext_in. intros g Hg.
  apply Qc_group_deviations.
  rewrite Forall_forall in Hne. now apply Hne.
Qed.

(** X16.  Without rounding, the error sum of squares of the core is the
    sum, over the groups, of the squared deviations of the observations
    from the mean of their group.  It is therefore never negative, no more
    is the total sum of squares, and the treatment sum of squares does
    not exceed the total. *)
Theorem exact_error_sum_of_squares (groups : list (list Qc))
    (t : anova_table Qc) :
  groups <> [] ->
  Forall (fun g => g <> []) groups ->
  perform_anova_core Arrays_Qc groups = Ok t ->
  SSE t = within_SS groups /\
  (Q2Qc 0 <= SSE t)%Qc /\ (Q2Qc 0 <= SST t)%Qc /\ (SSTR t <= SST t)%Qc.
Proof.
  intros Hg Hne Ht.
  rewrite (perform_anova_core_pooled groups Hg) in Ht.
  injection Ht as <-.
  change (spec_SSE groups = within_SS groups /\
          (Q2Qc 0 <= spec_SSE groups)%Qc /\
          (Q2Qc 0 <= spec_SST groups)%Qc /\
          (spec_SSTR groups <= spec_SST groups)%Qc).
  assert (HSSE : spec_SSE groups = within_SS groups).
  { rewrite (Qc_within_SS groups Hne).
    unfold spec_SSE, spec_SST, spec_SSTR. cbn [sub Arith_Qc]. ring. }
  assert (Hwithin : (Q2Qc 0 <= within_SS groups)%Qc).
  { unfold within_SS. apply Qc_sigma_nonneg, Forall_map, Forall_forall.
    intros g _. apply Qc_sigma_nonneg, Forall_map, Forall_forall.
    intros x _. apply Qc_square_nonneg. }
  assert (Hpool : pooled groups <> []).
  { destruct groups as [|g groups']; [congruence|].
    inversion Hne as [|? ? Hg1 _]; subst. unfold pooled; cbn [concat].
    destruct g; [congruence | discriminate]. }
  assert (Htotal : (Q2Qc 0 <= spec_SST groups)%Qc).
  { rewrite <- (Qc_direct_SST groups Hpool). unfold direct_SST.
    apply Qc_sigma_nonneg, Forall_map, Forall_forall.
    intros x _. apply Qc_square_nonneg. }
  split; [exact HSSE|].
  split; [rewrite HSSE; exact Hwithin|]. split; [exact Htotal|].
  apply Qcle_minus_iff.
  replace (spec_SST groups + - spec_SSTR groups)%Qc with (spec_SSE groups)
    by (unfold spec_SSE; cbn [sub Arith_Qc]; ring).
  now rewrite HSSE.
Qed.

Lemma exact_error_sum_of_squares_witness :
  exists t,
    perform_anova_core Arrays_Qc abc_groups = Ok t /\
    SSE t = within_SS abc_groups /\ (SSTR t <= SST t)%Qc.
Proof.
  destruct (perform_anova_core_ok Arrays_Qc (abc_groups (N := Qc)))
    as [t Ht]; [discriminate|].
  exists t. split; [exact Ht|].
  destruct (exact_error_sum_of_squares abc_groups t) as (H1 & _ & _ & H4).
  - discriminate.
  - repeat constructor; discriminate.
  - exact Ht.
  - split; [exact H1 | exact H4].
Defined.
